(** * bwdata: the data-access layer of the Brandwatch client, embedded in Rocq

    The file follows [bwdata.py]: the class [BWData] with its parameter
    filler ([_fill_params]), its filter validator ([_valid_input]), the
    paginated mention search ([get_mentions], [_get_mentions_page]), the
    plain accessors and the composite aggregators.  Python values, the
    dictionary and sequence operations the methods rely on, and the part of
    [datetime] that [_fill_params] calls are modelled first. *)

From Stdlib Require Import ZArith String Ascii List Bool Lia.
From Stdlib Require Import DecimalString.
From stdpp Require Import base option list gmap strings.

Local Open Scope string_scope.
Local Open Scope list_scope.
Local Open Scope Z_scope.
Local Set Warnings "-register-all,-abstract-large-number".

(** ** Python values *)

(** The values that flow through the module: filter settings given as
    keyword arguments, request parameters, and parsed JSON responses.
    A [VDict] keeps its items in insertion order, as a Python [dict] does;
    its keys are strings (keyword names and JSON object keys).  Floating
    point numbers are left out: no method of [BWData] computes with them. *)
Inductive value : Type :=
  | VNone
  | VBool (b : bool)
  | VInt (z : Z)
  | VStr (s : string)
  | VList (l : list value)
  | VDict (d : list (string * value)).

(** Keyword arguments ([**kwargs], the [data] of [_fill_params]): a Python
    dict, iterated in insertion order. *)
Definition kwargs := list (string * value).

(** [k in d] and [d[k]] on an insertion-ordered dict. *)
Fixpoint dict_get {A : Type} (k : string) (d : list (string * A)) : option A :=
  match d with
  | [] => None
  | (k', v) :: d' => if String.eqb k k' then Some v else dict_get k d'
  end.

Definition dict_mem {A : Type} (k : string) (d : list (string * A)) : bool :=
  match dict_get k d with Some _ => true | None => false end.

(** [bool(v)]: Python truthiness. *)
Definition truthy (v : value) : bool :=
  match v with
  | VNone => false
  | VBool b => b
  | VInt z => negb (z =? 0)
  | VStr s => negb (String.eqb s "")
  | VList l => match l with [] => false | _ => true end
  | VDict d => match d with [] => false | _ => true end
  end.

(** Truthiness of an optional string argument such as [name]: [None] and
    the empty string are falsy. *)
Definition truthy_str (o : option string) : bool :=
  match o with
  | None => false
  | Some s => negb (String.eqb s "")
  end.

(** [a == b].  [bool] is a subclass of [int], so [True == 1]; lists compare
    element by element, dicts as mappings (order does not matter). *)
Fixpoint py_eqb (a b : value) {struct a} : bool :=
  match a, b with
  | VNone, VNone => true
  | VBool x, VBool y => Bool.eqb x y
  | VBool x, VInt y => (if x then 1 else 0) =? y
  | VInt x, VBool y => x =? (if y then 1 else 0)
  | VInt x, VInt y => x =? y
  | VStr x, VStr y => String.eqb x y
  | VList xs, VList ys =>
      (fix go (xs : list value) (ys : list value) {struct xs} : bool :=
         match xs, ys with
         | [], [] => true
         | x :: xs', y :: ys' => py_eqb x y && go xs' ys'
         | _, _ => false
         end) xs ys
  | VDict d1, VDict d2 =>
      (Nat.eqb (List.length d1) (List.length d2)) &&
      (fix go (d : list (string * value)) {struct d} : bool :=
         match d with
         | [] => true
         | (k, v) :: d' =>
             match dict_get k d2 with
             | Some v' => py_eqb v v' && go d'
             | None => false
             end
         end) d1
  | _, _ => false
  end.

(** [x in l] for a list [l]. *)
Definition list_contains (x : value) (l : list value) : bool :=
  existsb (fun e => py_eqb e x) l.

(** The one-character strings of a string, as iteration over a [str]
    yields them. *)
Fixpoint str_chars (s : string) : list value :=
  match s with
  | EmptyString => []
  | String c s' => VStr (String c EmptyString) :: str_chars s'
  end.

(** [list(v)]: the elements an iteration over [v] yields; [None] where
    Python raises [TypeError] ([v] is not iterable). *)
Definition py_seq (v : value) : option (list value) :=
  match v with
  | VList l => Some l
  | VStr s => Some (str_chars s)
  | VDict d => Some (map (fun kv => VStr (fst kv)) d)
  | _ => None
  end.

(** [needle in s] for strings: substring test. *)
Definition str_contains (needle s : string) : bool :=
  match String.index 0 needle s with Some _ => true | None => false end.

(** [x in c]; [None] where Python raises [TypeError]: [c] is no container,
    [c] is a string and [x] is not, or [c] is a dict and [x] cannot be
    hashed. *)
Definition py_in (x c : value) : option bool :=
  match c with
  | VList l => Some (list_contains x l)
  | VDict d => match x with
               | VStr k => Some (dict_mem k d)
               | VList _ | VDict _ => None
               | _ => Some false
               end
  | VStr s => match x with
              | VStr n => Some (str_contains n s)
              | _ => None
              end
  | _ => None
  end.

(** [str(n)] for an integer. *)
Definition str_of_Z (z : Z) : string :=
  NilZero.string_of_int (Z.to_int z).


(** ** The part of [datetime] used by [_fill_params] *)

(** A [datetime.date] is kept as its proleptic Gregorian ordinal (day 1 is
    0001-01-01), the number [date.toordinal()] returns; adding
    [timedelta(days=n)] adds [n] to it.  [ord2ymd] is the library's
    conversion of an ordinal to year, month and day. *)
Module datetime.

Definition DI400Y : Z := 146097.
Definition DI100Y : Z := 36524.
Definition DI4Y : Z := 1461.

Definition days_in_month (month : Z) : Z :=
  nth (Z.to_nat month) [0; 31; 28; 31; 30; 31; 30; 31; 31; 30; 31; 30; 31] 0.

Definition days_before_month (month : Z) : Z :=
  nth (Z.to_nat month)
    [0; 0; 31; 59; 90; 120; 151; 181; 212; 243; 273; 304; 334] 0.

Definition ord2ymd (ordinal : Z) : Z * Z * Z :=
  let n := ordinal - 1 in
  let n400 := n / DI400Y in
  let n := n mod DI400Y in
  let year := n400 * 400 + 1 in
  let n100 := n / DI100Y in
  let n := n mod DI100Y in
  let n4 := n / DI4Y in
  let n := n mod DI4Y in
  let n1 := n / 365 in
  let n := n mod 365 in
  let year := year + n100 * 100 + n4 * 4 + n1 in
  if (n1 =? 4) || (n100 =? 4) then (year - 1, 12, 31)
  else
    let leapyear := (n1 =? 3) && (negb (n4 =? 24) || (n100 =? 3)) in
    let month := Z.shiftr (n + 50) 5 in
    let preceding :=
      days_before_month month + (if (2 <? month) && leapyear then 1 else 0) in
    if n <? preceding then
      let month := month - 1 in
      let preceding :=
        preceding
        - (days_in_month month + (if (month =? 2) && leapyear then 1 else 0)) in
      (year, month, n - preceding + 1)
    else (year, month, n - preceding + 1).

(** ["%0*d"]: a non-negative number padded with zeros to [width]. *)
Definition zero_pad (width : nat) (z : Z) : string :=
  let s := str_of_Z z in
  string_of_list_ascii (repeat "0"%char (width - String.length s)) +:+ s.

(** [date.isoformat()]: ["%04d-%02d-%02d"]. *)
Definition isoformat (ordinal : Z) : string :=
  let '(y, m, d) := ord2ymd ordinal in
  zero_pad 4 y +:+ "-" +:+ zero_pad 2 m +:+ "-" +:+ zero_pad 2 d.

Definition add_days (ordinal days : Z) : Z := ordinal + days.

End datetime.


(** ** Exceptions and results *)

(** Every failure the class signals itself is a [KeyError] told apart by
    its message; the constructors carry the names the specification gives
    them:
    - [MissingNameError]: ["Must specify query or group name"], with [data];
    - [UnknownEntityError]: ["Could not find " + resource_type + " " + name],
      carried as the message;
    - [MissingStartDateError]: ["Must provide start date"], with [data];
    - [InvalidFilterError]: ["invalid input for given parameter"], with the
      parameter;
    - [MissingChartAxesError]: ["You must pass in an y_axis, x_axis and
      breakdown_by"];
    - [MissingFeatureError]: ["You must pass in a feature"];
    - [MissingMetadataTypeError]: ["You must pass in a metadata_type"];
    - [InvalidDateRangeError]: ["You must pass in a valid list of date
      range(s)"];
    - [MentionsFetchError]: ["Mentions GET request failed"], with the
      response.
    The others are the interpreter's own: [PyKeyError k] for a subscript
    with a missing key [k], [PyIndexError], [PyTypeError]; and
    [TransportError] is whatever the transport raises. *)
Inductive exn : Type :=
  | MissingNameError (data : kwargs)
  | UnknownEntityError (message : string)
  | MissingStartDateError (data : kwargs)
  | InvalidFilterError (param : string)
  | MissingChartAxesError
  | MissingFeatureError
  | MissingMetadataTypeError
  | InvalidDateRangeError
  | MentionsFetchError (mentions : value)
  | PyKeyError (key : value)
  | PyIndexError
  | PyTypeError
  | TransportError (info : value).

(** The outcome of a call: a returned value, a raised exception, or, for
    the one unbounded loop of the class, the loop budget running out. *)
Inductive result (A : Type) : Type :=
  | Return (a : A)
  | Raise (e : exn)
  | OutOfFuel.
Arguments Return {A} a.
Arguments Raise {A} e.
Arguments OutOfFuel {A}.

(** [v[k]] for a string key. *)
Definition py_getitem (v : value) (k : string) : result value :=
  match v with
  | VDict d => match dict_get k d with
               | Some x => Return x
               | None => Raise (PyKeyError (VStr k))
               end
  | _ => Raise PyTypeError
  end.

(** [v[0]]. *)
Definition py_first (v : value) : result value :=
  match v with
  | VList l => match l with x :: _ => Return x | [] => Raise PyIndexError end
  | VStr s => match s with
              | String c _ => Return (VStr (String c EmptyString))
              | EmptyString => Raise PyIndexError
              end
  | VDict _ => Raise (PyKeyError (VInt 0))
  | _ => Raise PyTypeError
  end.

(** [v < m] and [v + 1] for a page index [v]: integers (and booleans, which
    are integers); anything else raises [TypeError]. *)
Definition py_int (v : value) : option Z :=
  match v with
  | VInt z => Some z
  | VBool b => Some (if b then 1 else 0)
  | _ => None
  end.

Definition py_lt (v : value) (m : Z) : result bool :=
  match py_int v with
  | Some z => Return (z <? m)
  | None => Raise PyTypeError
  end.

Definition py_incr (v : value) : result value :=
  match py_int v with
  | Some z => Return (VInt (z + 1))
  | None => Raise PyTypeError
  end.

(** ** The transport and the monad of calls *)

(** One call [project.get(endpoint=..., params=...)]: the endpoint and the
    parameters as they are when the call is made. *)
Record call : Type := Call {
  endpoint : string;
  call_params : gmap string value
}.

(** The transport is an external collaborator.  Its answer to a call may
    depend on the calls made before (a server, or a mock that hands out
    prepared pages one after the other): it is a function of the history
    and the call, and it returns the parsed JSON or raises. *)
Definition transport : Type := list call -> call -> exn + value.

(** A method runs against the history of calls made so far and extends it. *)
Definition M (A : Type) : Type := list call -> result A * list call.

Definition ret {A : Type} (a : A) : M A := fun h => (Return a, h).

Definition raise {A : Type} (e : exn) : M A := fun h => (Raise e, h).

Definition bind {A B : Type} (m : M A) (k : A -> M B) : M B :=
  fun h =>
    match m h with
    | (Return a, h') => k a h'
    | (Raise e, h') => (Raise e, h')
    | (OutOfFuel, h') => (OutOfFuel, h')
    end.

Definition lift {A : Type} (r : result A) : M A := fun h => (r, h).

Declare Scope call_scope.
Delimit Scope call_scope with call.
Notation "x <- c ;; k" := (bind c (fun x => k))
  (at level 100, c at next level, right associativity) : call_scope.
Local Open Scope call_scope.

(** ** The filter policy tables ([filters.py]) *)

(** The classes [filters.params] declares for a parameter. *)
Inductive pytype : Type := TStr | TInt | TBool | TList | TDict.

(** [isinstance(v, T)]; a [bool] is an [int]. *)
Definition isinstance (v : value) (T : pytype) : bool :=
  match T, v with
  | TStr, VStr _ => true
  | TInt, VInt _ => true
  | TInt, VBool _ => true
  | TBool, VBool _ => true
  | TList, VList _ => true
  | TDict, VDict _ => true
  | _, _ => false
  end.

(** [filters.params] maps a parameter name to the class its value must
    have, [filters.special_options] maps a parameter name to the list of its
    legal values.  The contents of the two tables are left open: they are
    parameters of the development. *)
Record filters : Type := Filters {
  params : gmap string pytype;
  special_options : gmap string (list value)
}.

(** ** The class [BWData] *)

(** The attributes and methods a subclass supplies: the registry [ids] of
    the resource names with their numeric ids, the parameter key of the id
    ([resource_id_name]), the label [resource_type] used in messages, the
    name-to-id resolution [_name_to_id], taken as a pure function of the
    parameter name and the raw value, and the [project] whose [get] is the
    transport.  The flag [console_report] only switches on progress lines
    printed by [get_mentions]; they change neither results nor calls and
    are left out. *)
Record BWData : Type := {
  ids : gmap string Z;
  resource_id_name : string;
  resource_type : string;
  _name_to_id : string -> value -> value;
  project : transport
}.

(** The state of the pagination loop of [get_mentions]: the request
    parameters (a dict the loop updates in place) and the mentions
    accumulated so far. *)
Record loop_state : Type := LoopState {
  st_params : gmap string value;
  st_all : list value
}.

(** [d[k]] on a parameter dict. *)
Definition params_item (d : gmap string value) (k : string) : result value :=
  match d !! k with
  | Some v => Return v
  | None => Raise (PyKeyError (VStr k))
  end.

Section BWData.

Variable F : filters.
Variable self : BWData.
(** The ambient clock: the ordinal of [datetime.date.today()]. *)
Variable today : Z.

(** [self.project.get(endpoint=..., params=...)]: one call, recorded in
    the history whether it returns or raises. *)
Definition get (ep : string) (ps : gmap string value) : M value :=
  fun h =>
    let c := Call ep ps in
    (match project self h c with
     | inl e => Raise e
     | inr v => Return v
     end, h ++ [c]).

Definition _valid_input (param : string) (setting : value) : bool :=
  if match params F !! param with
     | Some T => negb (isinstance setting T)
     | None => false
     end
  then false
  else if match special_options F !! param with
          | Some options => negb (list_contains setting options)
          | None => false
          end
  then false
  else true.

(** The loop [for param in data] of [_fill_params], over the items of
    [data] in insertion order. *)
Fixpoint fill_filters (items : kwargs) (filled : gmap string value)
  : result (gmap string value) :=
  match items with
  | [] => Return filled
  | (param, v) :: rest =>
      let setting := _name_to_id self param v in
      if _valid_input param setting
      then fill_filters rest (<[param := setting]> filled)
      else Raise (InvalidFilterError param)
  end.

Definition _fill_params (name : option string) (startDate : value)
    (data : kwargs) : result (gmap string value) :=
  match name with
  | None => Raise (MissingNameError data)
  | Some n =>
      if negb (truthy_str name) then Raise (MissingNameError data)
      else
        match ids self !! n with
        | None =>
            Raise (UnknownEntityError
                     ("Could not find " +:+ resource_type self +:+ " " +:+ n))
        | Some id =>
            if negb (truthy startDate) then Raise (MissingStartDateError data)
            else
              let filled : gmap string value := ∅ in
              let filled := <[resource_id_name self := VInt id]> filled in
              let filled := <["startDate" := startDate]> filled in
              let filled :=
                <["endDate" :=
                    match dict_get "endDate" data with
                    | Some v => v
                    | None =>
                        VStr (datetime.isoformat (datetime.add_days today 1))
                    end]> filled in
              let filled :=
                match dict_get "orderBy" data with
                | Some v => <["orderBy" := v]> filled
                | None => filled
                end in
              let filled :=
                match dict_get "orderDirection" data with
                | Some v => <["orderDirection" := v]> filled
                | None => filled
                end in
              fill_filters data filled
        end
  end.

(** [_get_mentions_page] writes [page] into the caller's [params] dict
    before the call: the updated dict is returned with the page. *)
Definition _get_mentions_page (ps : gmap string value) (page : value)
  : M (gmap string value * value) :=
  let ps := <["page" := page]> ps in
  mentions <- get "data/mentions/fulltext" ps ;;
  match py_in (VStr "errors") mentions with
  | None => raise PyTypeError
  | Some true => raise (MentionsFetchError mentions)
  | Some false =>
      results <- lift (py_getitem mentions "results") ;;
      ret (ps, results)
  end.

(** One evaluation of the loop test of [get_mentions] followed, when it
    holds, by the loop body: [inl] is the state the next iteration starts
    from, [inr] the mentions the loop leaves with (the test failed, or the
    page was empty and the body hit [break]). *)
Definition mentions_iter (max_pages : option Z) (st : loop_state)
  : M (loop_state + list value) :=
  page <- lift (params_item (st_params st) "page") ;;
  go <- match max_pages with
        | None => ret true
        | Some m => lift (py_lt page m)
        end ;;
  if go : bool then
    fetched <- _get_mentions_page (st_params st) page ;;
    let (ps, next_mentions) := fetched : gmap string value * value in
    match py_seq next_mentions with
    | None => raise PyTypeError
    | Some items =>
        if (0 <? List.length items)%nat then
          page <- lift (params_item ps "page") ;;
          page' <- lift (py_incr page) ;;
          ret (inl (LoopState (<["page" := page']> ps) (st_all st ++ items)))
        else ret (inr (st_all st))
    end
  else ret (inr (st_all st)).

(** The [while] loop, with a budget of iterations. *)
Fixpoint mentions_loop (fuel : nat) (max_pages : option Z) (st : loop_state)
  : M (list value) :=
  match fuel with
  | O => fun h => (OutOfFuel, h)
  | S fuel' =>
      r <- mentions_iter max_pages st ;;
      match r with
      | inl st' => mentions_loop fuel' max_pages st'
      | inr all_mentions => ret all_mentions
      end
  end.

(** The parameters [get_mentions] enters its loop with. *)
Definition mentions_params (kw : kwargs) (filled : gmap string value)
  : gmap string value :=
  let ps :=
    <["pageSize" := match dict_get "pageSize" kw with
                    | Some v => v
                    | None => VInt 5000
                    end]> filled in
  <["page" := match dict_get "page" kw with
              | Some v => v
              | None => VInt 0
              end]> ps.

Definition get_mentions (fuel : nat) (name : option string)
    (startDate : value) (max_pages : option Z) (kw : kwargs)
  : M (list value) :=
  filled <- lift (_fill_params name startDate kw) ;;
  mentions_loop fuel max_pages (LoopState (mentions_params kw filled) []).

(** *** The plain accessors *)

Definition num_mentions (name : option string) (startDate : value)
    (kw : kwargs) : M value :=
  ps <- lift (_fill_params name startDate kw) ;;
  get "data/mentions/count" ps.

Definition get_chart (name : option string) (startDate : value)
    (y_axis x_axis breakdown_by : option string) (kw : kwargs) : M value :=
  if negb (truthy_str y_axis && truthy_str x_axis && truthy_str breakdown_by)
  then raise MissingChartAxesError
  else
    let y := default "" y_axis in
    let x := default "" x_axis in
    let b := default "" breakdown_by in
    ps <- lift (_fill_params name startDate kw) ;;
    let ps := match ps !! "dim1Args" with
              | Some v => <["dim1Args" := _name_to_id self x v]> ps
              | None => ps
              end in
    let ps := match ps !! "dim2Args" with
              | Some v => <["dim2Args" := _name_to_id self b v]> ps
              | None => ps
              end in
    get ("data/" +:+ y +:+ "/" +:+ x +:+ "/" +:+ b) ps.

Definition get_topics (name : option string) (startDate : value)
    (kw : kwargs) : M value :=
  ps <- lift (_fill_params name startDate kw) ;;
  r <- get "data/volume/topics/queries" ps ;;
  lift (py_getitem r "topics").

Definition get_topics_comparison (name : option string) (startDate : value)
    (kw : kwargs) : M value :=
  ps <- lift (_fill_params name startDate kw) ;;
  r <- get "data/volume/topics/compare/gender" ps ;;
  lift (py_getitem r "topics").

Definition get_authors (name : option string) (startDate : value)
    (kw : kwargs) : M value :=
  ps <- lift (_fill_params name startDate kw) ;;
  r <- get "data/volume/topauthors/queries" ps ;;
  lift (py_getitem r "results").

Definition get_history (name : option string) (startDate : value)
    (kw : kwargs) : M value :=
  ps <- lift (_fill_params name startDate kw) ;;
  r <- get "data/volume/queries/days" ps ;;
  lift (py_getitem r "results").

Definition get_topsites (name : option string) (startDate : value)
    (kw : kwargs) : M value :=
  ps <- lift (_fill_params name startDate kw) ;;
  r <- get "data/volume/topsites/queries" ps ;;
  lift (py_getitem r "results").

Definition get_tweeters (name : option string) (startDate : value)
    (kw : kwargs) : M value :=
  ps <- lift (_fill_params name startDate kw) ;;
  r <- get "data/volume/toptweeters/queries" ps ;;
  lift (py_getitem r "results").

Definition get_volume (name : option string) (startDate : value)
    (kw : kwargs) : M value :=
  ps <- lift (_fill_params name startDate kw) ;;
  r <- get "data/volume/queries/pageTypes" ps ;;
  lift (py_getitem r "results").

Definition get_world (name : option string) (startDate : value)
    (kw : kwargs) : M value :=
  ps <- lift (_fill_params name startDate kw) ;;
  r <- get "data/volume/queries/countries" ps ;;
  results <- lift (py_getitem r "results") ;;
  lift (py_getitem results "values").

Definition get_keyinsights_mention_count (name : option string)
    (startDate : value) (kw : kwargs) : M value :=
  ps <- lift (_fill_params name startDate kw) ;;
  r <- get "data/mentions/count" ps ;;
  lift (py_getitem r "mentionsCount").

Definition get_keyinsights_author_count (name : option string)
    (startDate : value) (kw : kwargs) : M value :=
  ps <- lift (_fill_params name startDate kw) ;;
  r <- get "data/authors/months/queries" ps ;;
  results <- lift (py_getitem r "results") ;;
  first <- lift (py_first results) ;;
  values <- lift (py_getitem first "values") ;;
  v <- lift (py_first values) ;;
  lift (py_getitem v "value").

Definition get_keyinsights_topics (name : option string)
    (startDate : value) (kw : kwargs) : M value :=
  ps <- lift (_fill_params name startDate kw) ;;
  let ps := <["limit" := match dict_get "limit" kw with
                         | Some v => v
                         | None => VInt 3
                         end]> ps in
  r <- get "data/volume/topics/queries" ps ;;
  lift (py_getitem r "topics").

Definition get_keyinsights_news (name : option string)
    (startDate : value) (kw : kwargs) : M value :=
  ps <- lift (_fill_params name startDate kw) ;;
  let ps := <["pageSize" := match dict_get "pageSize" kw with
                            | Some v => v
                            | None => VInt 3
                            end]> ps in
  r <- get "data/mentions" ps ;;
  lift (py_getitem r "results").

Definition get_summary_sentiment (name : option string)
    (startDate : value) (kw : kwargs) : M value :=
  ps <- lift (_fill_params name startDate kw) ;;
  r <- get "data/volume/sentiment/days" ps ;;
  lift (py_getitem r "results").

Definition get_summary_topsites (name : option string)
    (startDate : value) (kw : kwargs) : M value :=
  ps <- lift (_fill_params name startDate kw) ;;
  r <- get "data/volume/topsites/queries" ps ;;
  lift (py_getitem r "results").

Definition get_summary_pagetypes (name : option string)
    (startDate : value) (kw : kwargs) : M value :=
  ps <- lift (_fill_params name startDate kw) ;;
  r <- get "data/volume/queries/pageTypes" ps ;;
  lift (py_getitem r "results").

Definition get_twitter_insights_feature (name : option string)
    (startDate : value) (feature : option string) (kw : kwargs) : M value :=
  if negb (truthy_str feature) then raise MissingFeatureError
  else
    ps <- lift (_fill_params name startDate kw) ;;
    get ("data/" +:+ default "" feature) ps.

Definition get_volume_group (name : option string) (startDate : value)
    (kw : kwargs) : M value :=
  ps <- lift (_fill_params name startDate kw) ;;
  r <- get "data/volume/queries/sentiment" ps ;;
  lift (py_getitem r "results").

Definition get_fb_analytics_partial (name : option string)
    (startDate : value) (metadata_type : option string) (kw : kwargs)
  : M value :=
  if negb (truthy_str metadata_type) then raise MissingMetadataTypeError
  else
    ps <- lift (_fill_params name startDate kw) ;;
    r <- get ("data/" +:+ default "" metadata_type +:+ "/queries/days") ps ;;
    results <- lift (py_getitem r "results") ;;
    lift (py_first results).

Definition get_fb_audience (name : option string) (startDate : value)
    (kw : kwargs) : M value :=
  ps <- lift (_fill_params name startDate kw) ;;
  r <- get "data/volume/topfacebookusers/queries" ps ;;
  lift (py_getitem r "results").

Definition get_fb_comments (name : option string) (startDate : value)
    (kw : kwargs) : M value :=
  ps <- lift (_fill_params name startDate kw) ;;
  r <- get "data/mentions/facebookcomments" ps ;;
  lift (py_getitem r "results").

Definition get_fb_posts (name : option string) (startDate : value)
    (kw : kwargs) : M value :=
  ps <- lift (_fill_params name startDate kw) ;;
  r <- get "data/mentions/facebookposts" ps ;;
  lift (py_getitem r "results").

Definition get_ig_interactions_partial (name : option string)
    (startDate : value) (metadata_type : option string) (kw : kwargs)
  : M value :=
  if negb (truthy_str metadata_type) then raise MissingMetadataTypeError
  else
    ps <- lift (_fill_params name startDate kw) ;;
    r <- get ("data/" +:+ default "" metadata_type +:+ "/queries/days") ps ;;
    results <- lift (py_getitem r "results") ;;
    lift (py_first results).

(** *** Date-range comparison *)

(** [_get_date_ranges] calls [project.get] with the endpoint alone; the
    parameters are the transport's default, the empty dict. *)
Definition _get_date_ranges (query_id : Z) : M value :=
  get ("queries/" +:+ str_of_Z query_id +:+ "/" +:+ "date-range") ∅.

(** [[dr["id"] for dr in date_range_list if dr["name"] in date_ranges]]. *)
Fixpoint select_date_range_ids (date_range_list : list value)
    (date_ranges : value) : result (list value) :=
  match date_range_list with
  | [] => Return []
  | dr :: rest =>
      match py_getitem dr "name" with
      | Return nm =>
          match py_in nm date_ranges with
          | None => Raise PyTypeError
          | Some keep =>
              if keep then
                match py_getitem dr "id" with
                | Return id =>
                    match select_date_range_ids rest date_ranges with
                    | Return l => Return (id :: l)
                    | other => other
                    end
                | Raise e => Raise e
                | OutOfFuel => OutOfFuel
                end
              else select_date_range_ids rest date_ranges
          end
      | Raise e => Raise e
      | OutOfFuel => OutOfFuel
      end
  end.

Definition get_date_range_comparison (name : option string)
    (startDate : value) (date_ranges : value) (kw : kwargs) : M value :=
  query_id <- lift (match name with
                    | None => Raise (PyKeyError VNone)
                    | Some n => match ids self !! n with
                                | Some id => Return id
                                | None => Raise (PyKeyError (VStr n))
                                end
                    end) ;;
  date_range_list <- _get_date_ranges query_id ;;
  match py_seq date_range_list with
  | None => raise PyTypeError
  | Some drs =>
      date_range_ids <- lift (select_date_range_ids drs date_ranges) ;;
      if match date_range_ids with [] => true | _ => false end
         || py_eqb date_ranges VNone
      then raise InvalidDateRangeError
      else
        ps <- lift (_fill_params name startDate kw) ;;
        let ps := <["dateRanges" := VList date_range_ids]> ps in
        r <- get "data/volume/dateRanges/days" ps ;;
        lift (py_getitem r "results")
  end.

(** *** The composite aggregators *)

(** Each builds a dict from sub-calls evaluated in the order written; the
    sub-calls are given [name] and [startDate] only, so their keyword
    arguments are empty. *)
Definition get_keyinsights (name : option string) (startDate : value)
    (kw : kwargs) : M value :=
  total_mentions <- get_keyinsights_mention_count name startDate [] ;;
  unique_authors <- get_keyinsights_author_count name startDate [] ;;
  topic_trends <- get_keyinsights_topics name startDate [] ;;
  rising_news <- get_keyinsights_news name startDate [] ;;
  ret (VDict [("total_mentions", total_mentions);
              ("unique_authors", unique_authors);
              ("topic_trends", topic_trends);
              ("rising_news", rising_news)]).

Definition get_summary (name : option string) (startDate : value)
    (kw : kwargs) : M value :=
  sentiment <- get_summary_sentiment name startDate [] ;;
  topsites <- get_summary_topsites name startDate [] ;;
  pagetypes <- get_summary_pagetypes name startDate [] ;;
  ret (VDict [("sentiment", sentiment);
              ("topsites", topsites);
              ("pagetypes", pagetypes)]).

Definition get_twitter_insights (name : option string) (startDate : value)
    (kw : kwargs) : M value :=
  hashtags <- get_twitter_insights_feature name startDate (Some "hashtags") [] ;;
  emoticons <- get_twitter_insights_feature name startDate (Some "emoticons") [] ;;
  urls <- get_twitter_insights_feature name startDate (Some "urls") [] ;;
  mentionedauthors <-
    get_twitter_insights_feature name startDate (Some "mentionedauthors") [] ;;
  ret (VDict [("hashtags", hashtags);
              ("emoticons", emoticons);
              ("urls", urls);
              ("mentionedauthors", mentionedauthors)]).

Definition get_fb_analytics (name : option string) (startDate : value)
    (kw : kwargs) : M value :=
  audience <- get_fb_analytics_partial name startDate (Some "audience") [] ;;
  ownerActivity <-
    get_fb_analytics_partial name startDate (Some "ownerActivity") [] ;;
  audienceActivity <-
    get_fb_analytics_partial name startDate (Some "audienceActivity") [] ;;
  impressions <-
    get_fb_analytics_partial name startDate (Some "impressions") [] ;;
  ret (VDict [("audience", audience);
              ("ownerActivity", ownerActivity);
              ("audienceActivity", audienceActivity);
              ("impressions", impressions)]).

Definition get_ig_interactions (name : option string) (startDate : value)
    (kw : kwargs) : M value :=
  ownerActivity <-
    get_ig_interactions_partial name startDate (Some "ownerActivity") [] ;;
  audienceActivity <-
    get_ig_interactions_partial name startDate (Some "audienceActivity") [] ;;
  ret (VDict [("ownerActivity", ownerActivity);
              ("audienceActivity", audienceActivity)]).

End BWData.

Arguments _valid_input F param setting : simpl never.

(** ** Auxiliary definitions for the statements *)

(** The parameters [_fill_params] builds when no filter is given: the
    resource id, the start date and tomorrow's date as the end date. *)
Definition default_params (self : BWData) (today : Z) (id : Z)
    (startDate : value) : gmap string value :=
  <["endDate" := VStr (datetime.isoformat (datetime.add_days today 1))]>
    (<["startDate" := startDate]> (<[resource_id_name self := VInt id]> ∅)).

(** A filter of [data] is accepted when its resolved value passes
    [_valid_input]. *)
Definition accepted (F : filters) (self : BWData) (item : string * value)
    : Prop :=
  _valid_input F (fst item) (_name_to_id self (fst item) (snd item)) = true.

(** The keys of [default_params]. *)
Definition default_keys (self : BWData) : gset string :=
  {[ resource_id_name self; "startDate"; "endDate" ]}.

(** A response of the mention search that carries the page [items]: a JSON
    object without an [errors] key whose [results] is the list [items]. *)
Definition is_page (r : exn + value) (items : list value) : Prop :=
  exists envelope,
    r = inr envelope /\
    py_in (VStr "errors") envelope = Some false /\
    py_getitem envelope "results" = Return (VList items).

(** The call the next iteration of the pagination loop issues, if its test
    lets it fetch a page. *)
Definition next_fetch (max_pages : option Z) (st : loop_state) : option call :=
  match st_params st !! "page" with
  | None => None
  | Some page =>
      let c := Call "data/mentions/fulltext" (<["page" := page]> (st_params st)) in
      match max_pages with
      | None => Some c
      | Some m =>
          match py_int page with
          | Some z => if z <? m then Some c else None
          | None => None
          end
      end
  end.

(** [run_pages n]: the loop state and the history after [n] iterations that
    each fetched a page and went on; [None] if the loop ends earlier. *)
Fixpoint run_pages (self : BWData) (n : nat)
    (max_pages : option Z) (st : loop_state) (h : list call)
  : option (loop_state * list call) :=
  match n with
  | O => Some (st, h)
  | S n' =>
      match mentions_iter self max_pages st h with
      | (Return (inl st'), h') => run_pages self n' max_pages st' h'
      | _ => None
      end
  end.

(** ** A concrete instance *)

(** Sample policy tables, in the shape [filters.py] gives them. *)
Definition sample_filters : filters :=
  Filters
    (list_to_map [("sentiment", TStr); ("orderBy", TStr);
                  ("twitterRetweetsMin", TInt)])
    (list_to_map [("sentiment",
                   [VStr "positive"; VStr "negative"; VStr "neutral"])]).

(** Policy tables that declare an enumeration for ["sentiment"] and no
    class for it. *)
Definition enum_filters : filters :=
  Filters ∅
    (list_to_map [("sentiment",
                   [VStr "positive"; VStr "negative"; VStr "neutral"])]).

(** Policy tables that declare nothing. *)
Definition empty_filters : filters := Filters ∅ ∅.

(** A resource registry with one query, ["q"], and a resolution that
    leaves every value as it is. *)
Definition sample_self (T : transport) : BWData :=
  {| ids := {[ "q" := 42 ]};
     resource_id_name := "queryId";
     resource_type := "query";
     _name_to_id := fun _ v => v;
     project := T |}.

(** A mocked transport that answers its k-th call with the k-th of the
    prepared pages, and with an empty page once they are used up. *)
Definition pages_transport (pages : list (list value)) : transport :=
  fun h _ => inr (VDict [("results", VList (nth (List.length h) pages []))]).

(** A mocked transport that answers its k-th call with the k-th of the
    prepared answers, and with an empty page once they are used up. *)
Definition scripted_transport (answers : list (exn + value)) : transport :=
  fun h _ =>
    nth (List.length h) answers (inr (VDict [("results", VList [])])).

(** A transport that gives the same answer to every call. *)
Definition const_transport (answer : exn + value) : transport :=
  fun _ _ => answer.

(** 2026-11-04 as an ordinal. *)
Definition sample_today : Z := 739924.

(** The call that fetches page [k] with the parameters [ps]. *)
Definition page_call (ps : gmap string value) (k : Z) : call :=
  Call "data/mentions/fulltext" (<["page" := VInt k]> ps).

(** The distance of the page index of a loop state from the cap [m]. *)
Definition pages_left (m : Z) (st : loop_state) : nat :=
  match st_params st !! "page" with
  | Some page =>
      match py_int page with
      | Some z => Z.to_nat (m - z)
      | None => O
      end
  | None => O
  end.

(** ** The accessors as a family *)

(** The public data accessors of the class, each with the arguments it
    takes besides [name], [startDate] and the keyword filters. *)
Inductive accessor : Type :=
  | GetMentions (fuel : nat) (max_pages : option Z)
  | NumMentions
  | GetChart (y_axis x_axis breakdown_by : option string)
  | GetTopics
  | GetTopicsComparison
  | GetAuthors
  | GetHistory
  | GetTopsites
  | GetTweeters
  | GetVolume
  | GetWorld
  | GetKeyinsights
  | GetKeyinsightsMentionCount
  | GetKeyinsightsAuthorCount
  | GetKeyinsightsTopics
  | GetKeyinsightsNews
  | GetSummary
  | GetSummarySentiment
  | GetSummaryTopsites
  | GetSummaryPagetypes
  | GetTwitterInsights
  | GetTwitterInsightsFeature (feature : option string)
  | GetVolumeGroup
  | GetDateRangeComparison (date_ranges : value)
  | GetFbAnalytics
  | GetFbAnalyticsPartial (metadata_type : option string)
  | GetFbAudience
  | GetFbComments
  | GetFbPosts
  | GetIgInteractions
  | GetIgInteractionsPartial (metadata_type : option string).

Definition call_accessor (F : filters) (self : BWData) (today : Z)
    (a : accessor) (name : option string) (startDate : value) (kw : kwargs)
  : M value :=
  match a with
  | GetMentions fuel max_pages =>
      all_mentions <- get_mentions F self today fuel name startDate max_pages kw ;;
      ret (VList all_mentions)
  | NumMentions => num_mentions F self today name startDate kw
  | GetChart y_axis x_axis breakdown_by =>
      get_chart F self today name startDate y_axis x_axis breakdown_by kw
  | GetTopics => get_topics F self today name startDate kw
  | GetTopicsComparison => get_topics_comparison F self today name startDate kw
  | GetAuthors => get_authors F self today name startDate kw
  | GetHistory => get_history F self today name startDate kw
  | GetTopsites => get_topsites F self today name startDate kw
  | GetTweeters => get_tweeters F self today name startDate kw
  | GetVolume => get_volume F self today name startDate kw
  | GetWorld => get_world F self today name startDate kw
  | GetKeyinsights => get_keyinsights F self today name startDate kw
  | GetKeyinsightsMentionCount =>
      get_keyinsights_mention_count F self today name startDate kw
  | GetKeyinsightsAuthorCount =>
      get_keyinsights_author_count F self today name startDate kw
  | GetKeyinsightsTopics => get_keyinsights_topics F self today name startDate kw
  | GetKeyinsightsNews => get_keyinsights_news F self today name startDate kw
  | GetSummary => get_summary F self today name startDate kw
  | GetSummarySentiment => get_summary_sentiment F self today name startDate kw
  | GetSummaryTopsites => get_summary_topsites F self today name startDate kw
  | GetSummaryPagetypes => get_summary_pagetypes F self today name startDate kw
  | GetTwitterInsights => get_twitter_insights F self today name startDate kw
  | GetTwitterInsightsFeature feature =>
      get_twitter_insights_feature F self today name startDate feature kw
  | GetVolumeGroup => get_volume_group F self today name startDate kw
  | GetDateRangeComparison date_ranges =>
      get_date_range_comparison F self today name startDate date_ranges kw
  | GetFbAnalytics => get_fb_analytics F self today name startDate kw
  | GetFbAnalyticsPartial metadata_type =>
      get_fb_analytics_partial F self today name startDate metadata_type kw
  | GetFbAudience => get_fb_audience F self today name startDate kw
  | GetFbComments => get_fb_comments F self today name startDate kw
  | GetFbPosts => get_fb_posts F self today name startDate kw
  | GetIgInteractions => get_ig_interactions F self today name startDate kw
  | GetIgInteractionsPartial metadata_type =>
      get_ig_interactions_partial F self today name startDate metadata_type kw
  end.

(** The accessors whose first step is [_fill_params]: all of them but the
    date-range comparison, the chart and the feature and metadata-type
    accessors being given their discriminating arguments. *)
Definition fills_first (a : accessor) : bool :=
  match a with
  | GetDateRangeComparison _ => false
  | GetChart y_axis x_axis breakdown_by =>
      truthy_str y_axis && truthy_str x_axis && truthy_str breakdown_by
  | GetTwitterInsightsFeature feature => truthy_str feature
  | GetFbAnalyticsPartial metadata_type => truthy_str metadata_type
  | GetIgInteractionsPartial metadata_type => truthy_str metadata_type
  | _ => true
  end.

(** [issues P m]: from any history, the calls [m] adds all satisfy [P]. *)
Definition issues {A : Type} (P : call -> Prop) (m : M A) : Prop :=
  forall h, exists cs, snd (m h) = h ++ cs /\ Forall P cs.

(** A call whose parameters were built from [name] and [startDate] alone:
    the parameters [_fill_params] gives without filters, possibly with the
    [limit] or [pageSize] of 3 that the key-insights accessors add. *)
Definition unfiltered_call (F : filters) (self : BWData) (today : Z)
    (name : option string) (startDate : value) (c : call) : Prop :=
  exists filled,
    _fill_params F self today name startDate [] = Return filled /\
    (call_params c = filled \/
     call_params c = <["limit" := VInt 3]> filled \/
     call_params c = <["pageSize" := VInt 3]> filled).

(** The parameters of the sample query from the start date 2026-10-06,
    as [get_mentions] enters its loop with them. *)
Definition sample_start : value := VStr "2026-10-06".

Definition sample_params (T : transport) : gmap string value :=
  mentions_params [] (default_params (sample_self T) sample_today 42 sample_start).

(** A page of 5000 mentions. *)
Definition full_page : list value := repeat (VStr "mention") 5000.

(** The mock of the pagination test: two full pages, then an empty one. *)
Definition three_pages : transport :=
  pages_transport [full_page; full_page; []].

(** One page with one mention, then an empty page. *)
Definition short_pages : transport :=
  pages_transport [[VStr "mention"]; []].

(** A transport whose pages never run out. *)
Definition endless_pages : transport :=
  const_transport (inr (VDict [("results", VList [VStr "mention"])])).

(** A transport that answers the second fetch with an error envelope. *)
Definition failing_second_page : transport :=
  scripted_transport
    [inr (VDict [("results", VList [VStr "mention"])]);
     inr (VDict [("errors", VList [VStr "rate limit"])])].

(** A transport for an entity with one date range, ["last week"]. *)
Definition one_date_range : transport :=
  const_transport
    (inr (VList [VDict [("id", VInt 7); ("name", VStr "last week")]])).

(** ** Further auxiliary definitions *)

(** The names of the filters of a keyword mapping. *)
Definition filter_keys (data : kwargs) : gset string :=
  list_to_set (map fst data).

(** The calls that fetch the [n] pages from index [z] on. *)
Definition page_calls (ps : gmap string value) (z : Z) (n : nat) : list call :=
  map (fun i => page_call ps (z + Z.of_nat i)) (seq 0 n).

(** The page index [get_mentions] starts from. *)
Definition start_page (kw : kwargs) : value :=
  match dict_get "page" kw with
  | Some v => v
  | None => VInt 0
  end.

(** A transport that fails every call, and one whose envelopes carry
    neither [errors] nor [results]. *)
Definition failing_transport : transport :=
  const_transport (inl (TransportError (VStr "timeout"))).

Definition bare_transport : transport :=
  const_transport (inr (VDict [("total", VInt 0)])).

(** The endpoint of the accessors that make one call. *)
Definition endpoint_of (a : accessor) : option string :=
  match a with
  | NumMentions => Some "data/mentions/count"
  | GetChart y_axis x_axis breakdown_by =>
      Some ("data/" +:+ default "" y_axis +:+ "/" +:+ default "" x_axis
            +:+ "/" +:+ default "" breakdown_by)
  | GetTopics => Some "data/volume/topics/queries"
  | GetTopicsComparison => Some "data/volume/topics/compare/gender"
  | GetAuthors => Some "data/volume/topauthors/queries"
  | GetHistory => Some "data/volume/queries/days"
  | GetTopsites => Some "data/volume/topsites/queries"
  | GetTweeters => Some "data/volume/toptweeters/queries"
  | GetVolume => Some "data/volume/queries/pageTypes"
  | GetWorld => Some "data/volume/queries/countries"
  | GetKeyinsightsMentionCount => Some "data/mentions/count"
  | GetKeyinsightsAuthorCount => Some "data/authors/months/queries"
  | GetKeyinsightsTopics => Some "data/volume/topics/queries"
  | GetKeyinsightsNews => Some "data/mentions"
  | GetSummarySentiment => Some "data/volume/sentiment/days"
  | GetSummaryTopsites => Some "data/volume/topsites/queries"
  | GetSummaryPagetypes => Some "data/volume/queries/pageTypes"
  | GetTwitterInsightsFeature feature => Some ("data/" +:+ default "" feature)
  | GetVolumeGroup => Some "data/volume/queries/sentiment"
  | GetFbAnalyticsPartial metadata_type =>
      Some ("data/" +:+ default "" metadata_type +:+ "/queries/days")
  | GetFbAudience => Some "data/volume/topfacebookusers/queries"
  | GetFbComments => Some "data/mentions/facebookcomments"
  | GetFbPosts => Some "data/mentions/facebookposts"
  | GetIgInteractionsPartial metadata_type =>
      Some ("data/" +:+ default "" metadata_type +:+ "/queries/days")
  | _ => None
  end.

(** The keys an accessor may set after [_fill_params]. *)
Definition adjusted_keys : gset string :=
  {[ "limit"; "pageSize"; "dim1Args"; "dim2Args" ]}.

(** [calls n m]: from any history [m] adds at most [n] calls, and exactly
    [n] when it returns. *)
Definition calls {A : Type} (n : nat) (m : M A) : Prop :=
  forall h, exists cs,
    snd (m h) = h ++ cs /\
    (List.length cs <= n)%nat /\
    (forall a, fst (m h) = Return a -> List.length cs = n).

(** A transport whose answers do not depend on the history. *)
Definition stateless (T : transport) : Prop :=
  forall h h' c, T h c = T h' c.

(** The field [k] of a date range. *)
Definition dr_field (k : string) (dr : value) : value :=
  match py_getitem dr k with
  | Return v => v
  | _ => VNone
  end.

(** A date range as the API lists it: an object with a name and an id. *)
Definition is_date_range (dr : value) : Prop :=
  exists nm id,
    py_getitem dr "name" = Return nm /\ py_getitem dr "id" = Return id.

(** The ids of the date ranges whose name is among [names], in the order
    the entity lists them. *)
Definition matching_ids (drs names : list value) : list value :=
  map (dr_field "id")
      (List.filter (fun dr => list_contains (dr_field "name" dr) names) drs).

(** A transport that answers every call with an envelope whose [results]
    is empty. *)
Definition empty_results : transport :=
  const_transport (inr (VDict [("results", VList [])])).

(** A transport for the sample query: its date ranges on the date-range
    endpoint, a result envelope elsewhere. *)
Definition sample_api : transport :=
  fun _ c =>
    if String.eqb (endpoint c) "queries/42/date-range"
    then inr (VList [VDict [("id", VInt 7); ("name", VStr "last week")];
                     VDict [("id", VInt 8); ("name", VStr "last month")];
                     VDict [("id", VInt 9); ("name", VStr "last year")]])
    else inr (VDict [("results", VList [VInt 1]); ("topics", VList [])]).


(** * Properties *)

(** ** Sanity checks of the primitives *)

Example str_of_Z_ex :
  str_of_Z 0 = "0" /\ str_of_Z 1998295055 = "1998295055" /\ str_of_Z (-7) = "-7".
Proof. repeat split; reflexivity. Qed.

Example isoformat_ex :
  datetime.isoformat 1 = "0001-01-01" /\
  datetime.isoformat 730120 = "2000-01-01" /\
  datetime.isoformat 730179 = "2000-02-29" /\
  datetime.isoformat 737790 = "2020-12-31" /\
  datetime.isoformat (datetime.add_days 737790 1) = "2021-01-01" /\
  datetime.isoformat 3652059 = "9999-12-31".
Proof. repeat split; reflexivity. Qed.

Lemma bind_ret {A B : Type} (a : A) (k : A -> M B) h :
  bind (ret a) k h = k a h.
Proof. reflexivity. Qed.

Lemma bind_lift_return {A B : Type} (a : A) (k : A -> M B) h :
  bind (lift (Return a)) k h = k a h.
Proof. reflexivity. Qed.

Lemma bind_lift_raise {A B : Type} (e : exn) (k : A -> M B) h :
  bind (lift (Raise e)) k h = (Raise e, h).
Proof. reflexivity. Qed.

Lemma bind_raise {A B : Type} (e : exn) (k : A -> M B) h :
  bind (raise e) k h = (Raise e, h).
Proof. reflexivity. Qed.

(** ** The methods on small inputs *)

Example valid_input_ex :
  _valid_input sample_filters "sentiment" (VStr "positive") = true /\
  _valid_input sample_filters "sentiment" (VStr "glad") = false /\
  _valid_input sample_filters "sentiment" (VList [VStr "positive"]) = false /\
  _valid_input sample_filters "twitterRetweetsMin" (VInt 20) = true /\
  _valid_input sample_filters "twitterRetweetsMin" (VStr "20") = false /\
  _valid_input sample_filters "notListed" (VDict []) = true.
Proof. repeat split; reflexivity. Qed.

Example fill_params_ex :
  _fill_params sample_filters (sample_self short_pages) sample_today
    (Some "q") sample_start
    [("endDate", VStr "2026-11-01"); ("twitterRetweetsMin", VInt 20)]
  = Return (<["twitterRetweetsMin" := VInt 20]>
              (<["endDate" := VStr "2026-11-01"]>
                 (<["startDate" := sample_start]> {[ "queryId" := VInt 42 ]}))).
Proof. vm_compute. reflexivity. Qed.

Example get_mentions_ex :
  get_mentions sample_filters (sample_self short_pages) sample_today 5
    (Some "q") sample_start None [] []
  = (Return [VStr "mention"],
     [page_call (sample_params short_pages) 0;
      page_call (sample_params short_pages) 1]).
Proof. vm_compute. reflexivity. Qed.

Example get_mentions_out_of_budget_ex :
  fst (get_mentions sample_filters (sample_self endless_pages) sample_today 4
         (Some "q") sample_start None [] [])
  = OutOfFuel.
Proof. vm_compute. reflexivity. Qed.

Example get_summary_ex :
  fst (get_summary sample_filters
         (sample_self (const_transport (inr (VDict [("results", VInt 1)]))))
         sample_today (Some "q") sample_start [("sentiment", VStr "glad")] [])
  = Return (VDict [("sentiment", VInt 1); ("topsites", VInt 1);
                   ("pagetypes", VInt 1)]).
Proof. vm_compute. reflexivity. Qed.

(** ** The parameter filler *)

Section FillParams.

Variable F : filters.
Variable self : BWData.
Variable today : Z.

Lemma fill_params_missing_name name startDate data :
  truthy_str name = false ->
  _fill_params F self today name startDate data
  = Raise (MissingNameError data).
Proof.
  intros Hname. unfold _fill_params.
  destruct name as [n|]; [|reflexivity].
  rewrite Hname. reflexivity.
Qed.

Lemma fill_params_unknown n startDate data :
  n <> "" -> ids self !! n = None ->
  _fill_params F self today (Some n) startDate data
  = Raise (UnknownEntityError
             ("Could not find " +:+ resource_type self +:+ " " +:+ n)).
Proof.
  intros Hn Hids. unfold _fill_params, truthy_str.
  apply String.eqb_neq in Hn. rewrite Hn. simpl. rewrite Hids. reflexivity.
Qed.

Lemma fill_params_missing_start n id startDate data :
  n <> "" -> ids self !! n = Some id -> truthy startDate = false ->
  _fill_params F self today (Some n) startDate data
  = Raise (MissingStartDateError data).
Proof.
  intros Hn Hids Hsd. unfold _fill_params, truthy_str.
  apply String.eqb_neq in Hn. rewrite Hn. simpl. rewrite Hids, Hsd.
  reflexivity.
Qed.

Lemma fill_params_nil n id startDate :
  n <> "" -> ids self !! n = Some id -> truthy startDate = true ->
  _fill_params F self today (Some n) startDate []
  = Return (default_params self today id startDate).
Proof.
  intros Hn Hids Hsd. unfold _fill_params, truthy_str.
  apply String.eqb_neq in Hn. rewrite Hn. simpl. rewrite Hids, Hsd.
  reflexivity.
Qed.

(** The filter loop only writes the keys of the filters it is given. *)
Lemma fill_filters_other items : forall filled filled' k,
  fill_filters F self items filled = Return filled' ->
  dict_get k items = None ->
  filled' !! k = filled !! k.
Proof.
  induction items as [|[param v] rest IH]; intros filled filled' k Hrun Hk.
  - simpl in Hrun. congruence.
  - simpl in Hrun, Hk.
    destruct (String.eqb k param) eqn:Hkp; [discriminate|].
    destruct (_valid_input F param (_name_to_id self param v)); [|discriminate].
    rewrite (IH _ _ _ Hrun Hk).
    apply String.eqb_neq in Hkp.
    apply lookup_insert_ne. congruence.
Qed.

(** The loop stops at the first filter that is not accepted. *)
Lemma fill_filters_reject pre : forall filled param v post,
  Forall (accepted F self) pre ->
  _valid_input F param (_name_to_id self param v) = false ->
  fill_filters F self (pre ++ (param, v) :: post) filled
  = Raise (InvalidFilterError param).
Proof.
  induction pre as [|[q w] pre IH]; intros filled param v post Hpre Hbad.
  - simpl. rewrite Hbad. reflexivity.
  - inversion Hpre as [|? ? Hq Hrest]; subst.
    unfold accepted in Hq. simpl in Hq.
    simpl. rewrite Hq. apply IH; assumption.
Qed.


Lemma default_params_dom id startDate :
  dom (default_params self today id startDate) = default_keys self.
Proof.
  unfold default_params, default_keys.
  rewrite !dom_insert_L, dom_empty_L.
  apply set_eq. intros k.
  rewrite !elem_of_union, !elem_of_singleton, elem_of_empty. tauto.
Qed.

Lemma default_params_size id startDate :
  resource_id_name self <> "startDate" ->
  resource_id_name self <> "endDate" ->
  size (default_params self today id startDate) = 3%nat.
Proof.
  intros H1 H2. unfold default_params.
  rewrite map_size_insert_None.
  2:{ rewrite lookup_insert_ne by discriminate.
      rewrite lookup_insert_ne by congruence. apply lookup_empty. }
  rewrite map_size_insert_None.
  2:{ rewrite lookup_insert_ne by congruence. apply lookup_empty. }
  rewrite map_size_insert_None by apply lookup_empty.
  rewrite map_size_empty. reflexivity.
Qed.

(** C10: [_fill_params] checks its required arguments in a fixed order:
    a falsy name is reported as the missing-name error whatever the start
    date is (so also when both are falsy); a truthy name that the registry
    does not know is reported as the unknown-entity error whatever the start
    date is (so also when it is falsy); only a known name with a falsy start
    date is reported as the missing-start-date error. *)
Theorem fill_params_check_order (name : option string) (startDate : value)
    (data : kwargs) :
  (truthy_str name = false ->
   _fill_params F self today name startDate data
   = Raise (MissingNameError data)) /\
  (forall n, name = Some n -> n <> "" -> ids self !! n = None ->
   _fill_params F self today name startDate data
   = Raise (UnknownEntityError
              ("Could not find " +:+ resource_type self +:+ " " +:+ n))) /\
  (forall n id, name = Some n -> n <> "" -> ids self !! n = Some id ->
   truthy startDate = false ->
   _fill_params F self today name startDate data
   = Raise (MissingStartDateError data)).
Proof.
  split; [|split].
  - apply fill_params_missing_name.
  - intros n -> Hn Hids. apply fill_params_unknown; assumption.
  - intros n id -> Hn Hids Hsd. eapply fill_params_missing_start; eassumption.
Qed.

(** Without an [endDate] filter the end date of a filled parameter set is
    tomorrow's date, whatever the other filters are. *)
Lemma fill_params_end_date n startDate data filled :
  resource_id_name self <> "endDate" ->
  dict_get "endDate" data = None ->
  _fill_params F self today (Some n) startDate data = Return filled ->
  filled !! "endDate"
  = Some (VStr (datetime.isoformat (datetime.add_days today 1))).
Proof.
  intros Hrid Hend Hrun. unfold _fill_params in Hrun.
  destruct (negb (truthy_str (Some n))); [discriminate|].
  destruct (ids self !! n) as [id|]; [|discriminate].
  destruct (negb (truthy startDate)); [discriminate|].
  rewrite Hend in Hrun.
  rewrite (fill_filters_other _ _ _ _ Hrun Hend).
  destruct (dict_get "orderBy" data), (dict_get "orderDirection" data);
    repeat (rewrite lookup_insert_ne by discriminate);
    apply lookup_insert_eq.
Qed.

(** C3: with a name of the registry, a truthy start date and no filters,
    [_fill_params] returns a mapping with exactly three keys, the resource
    id key bound to the registry's id of the name, [startDate] bound to the
    given start date, and [endDate]; and whenever no [endDate] filter is
    supplied, [endDate] is bound to the ISO form of today plus one day.
    The resource id key is a key of its own, different from the two date
    keys. *)
Theorem fill_params_three_keys (n : string) (id : Z) (startDate : value) :
  n <> "" -> ids self !! n = Some id -> truthy startDate = true ->
  resource_id_name self <> "startDate" ->
  resource_id_name self <> "endDate" ->
  (exists filled,
     _fill_params F self today (Some n) startDate [] = Return filled /\
     dom filled = default_keys self /\
     size filled = 3%nat /\
     filled !! resource_id_name self = Some (VInt id) /\
     filled !! "startDate" = Some startDate /\
     filled !! "endDate"
     = Some (VStr (datetime.isoformat (datetime.add_days today 1)))) /\
  (forall data filled,
     dict_get "endDate" data = None ->
     _fill_params F self today (Some n) startDate data = Return filled ->
     filled !! "endDate"
     = Some (VStr (datetime.isoformat (datetime.add_days today 1)))).
Proof.
  intros Hn Hids Hsd Hrs Hre. split.
  - exists (default_params self today id startDate).
    split; [apply fill_params_nil; assumption|].
    split; [apply default_params_dom|].
    split; [apply default_params_size; assumption|].
    unfold default_params. repeat split.
    + rewrite lookup_insert_ne by congruence.
      rewrite lookup_insert_ne by congruence.
      apply lookup_insert_eq.
    + rewrite lookup_insert_ne by discriminate. apply lookup_insert_eq.
    + apply lookup_insert_eq.
  - intros data filled Hend Hrun.
    eapply fill_params_end_date; eassumption.
Qed.

(** What [_valid_input] computes for a parameter with an enumeration. *)
Lemma valid_input_enum p options v :
  special_options F !! p = Some options ->
  _valid_input F p v = true <->
  (forall T, params F !! p = Some T -> isinstance v T = true) /\
  list_contains v options = true.
Proof.
  intros Hopt. unfold _valid_input. rewrite Hopt.
  destruct (params F !! p) as [T|].
  - destruct (isinstance v T) eqn:Hty; simpl.
    + destruct (list_contains v options); simpl; split.
      * intros _. split; [intros T' [= <-]; exact Hty | reflexivity].
      * reflexivity.
      * discriminate.
      * intros [_ H]. discriminate.
    + split; [discriminate|].
      intros [H _]. specialize (H T eq_refl). congruence.
  - destruct (list_contains v options); simpl; split.
    + intros _. split; [discriminate | reflexivity].
    + reflexivity.
    + discriminate.
    + intros [_ H]. discriminate.
Qed.

(** With valid required arguments [_fill_params] is the filter loop run
    on the parameters built so far. *)
Lemma fill_params_reject n id startDate pre p raw post :
  n <> "" -> ids self !! n = Some id -> truthy startDate = true ->
  Forall (accepted F self) pre ->
  _valid_input F p (_name_to_id self p raw) = false ->
  _fill_params F self today (Some n) startDate (pre ++ (p, raw) :: post)
  = Raise (InvalidFilterError p).
Proof.
  intros Hn Hids Hsd Hpre Hbad. unfold _fill_params, truthy_str.
  apply String.eqb_neq in Hn. rewrite Hn. simpl. rewrite Hids, Hsd.
  apply fill_filters_reject; assumption.
Qed.

(** C5, as the code has it: for a parameter with a declared enumeration,
    [_valid_input] accepts a value, scalar or sequence alike, exactly when
    the value passes the class check declared for the parameter (if any)
    and the value itself equals a member of the declared list; a sequence
    is compared as a whole, not element by element.  With valid required
    arguments, [_fill_params] fails with [InvalidFilterError] naming the
    first filter whose resolved value is not accepted. *)
Theorem valid_input_enumerated (p : string) (options : list value) :
  special_options F !! p = Some options ->
  (forall v,
     _valid_input F p v = true <->
     (forall T, params F !! p = Some T -> isinstance v T = true) /\
     list_contains v options = true) /\
  (forall l,
     _valid_input F p (VList l) = true -> list_contains (VList l) options = true) /\
  (forall n id startDate pre raw post,
     n <> "" -> ids self !! n = Some id -> truthy startDate = true ->
     Forall (accepted F self) pre ->
     _valid_input F p (_name_to_id self p raw) = false ->
     _fill_params F self today (Some n) startDate (pre ++ (p, raw) :: post)
     = Raise (InvalidFilterError p)).
Proof.
  intros Hopt. split; [|split].
  - intros v. apply valid_input_enum. exact Hopt.
  - intros l Hv. apply (valid_input_enum p options (VList l) Hopt) in Hv.
    apply Hv.
  - intros. eapply fill_params_reject; eassumption.
Qed.


End FillParams.

(** ** The pagination loop *)

Section Pagination.

Variable self : BWData.

Ltac run_monad :=
  unfold bind, lift, ret, raise, params_item, py_lt, py_incr, get; simpl.

Lemma get_mentions_page_ok ps page h items :
  is_page (project self h (Call "data/mentions/fulltext" (<["page" := page]> ps)))
          items ->
  _get_mentions_page self ps page h
  = (Return (<["page" := page]> ps, VList items),
     h ++ [Call "data/mentions/fulltext" (<["page" := page]> ps)]).
Proof.
  intros (envelope & Hget & Herr & Hres).
  unfold _get_mentions_page. run_monad.
  rewrite Hget, Herr. simpl. rewrite Hres. reflexivity.
Qed.

Lemma get_mentions_page_errors ps page h d :
  project self h (Call "data/mentions/fulltext" (<["page" := page]> ps))
  = inr (VDict d) ->
  dict_mem "errors" d = true ->
  _get_mentions_page self ps page h
  = (Raise (MentionsFetchError (VDict d)),
     h ++ [Call "data/mentions/fulltext" (<["page" := page]> ps)]).
Proof.
  intros Hget Herr. unfold _get_mentions_page. run_monad.
  rewrite Hget. simpl. rewrite Herr. reflexivity.
Qed.

(** What [next_fetch] says: the page index is there, the loop test holds,
    and the call carries the index. *)
Lemma next_fetch_inv mp st c :
  next_fetch mp st = Some c ->
  exists page,
    st_params st !! "page" = Some page /\
    c = Call "data/mentions/fulltext" (<["page" := page]> (st_params st)) /\
    (forall m, mp = Some m -> py_lt page m = Return true).
Proof.
  unfold next_fetch. intros H.
  destruct (st_params st !! "page") as [page|]; [|discriminate].
  exists page. split; [reflexivity|].
  destruct mp as [m|].
  - unfold py_lt. destruct (py_int page) as [z|]; [|discriminate].
    destruct (z <? m) eqn:Hlt; [|discriminate].
    injection H as <-. split; [reflexivity|].
    intros m' [= <-]. rewrite Hlt. reflexivity.
  - injection H as <-. split; [reflexivity|]. intros m' [=].
Qed.

Lemma iter_fetch_errors mp st h c d :
  next_fetch mp st = Some c ->
  project self h c = inr (VDict d) ->
  dict_mem "errors" d = true ->
  mentions_iter self mp st h = (Raise (MentionsFetchError (VDict d)), h ++ [c]).
Proof.
  intros Hnext Hget Herr.
  destruct (next_fetch_inv _ _ _ Hnext) as (page & Hpage & -> & Hlt).
  unfold mentions_iter.
  unfold bind at 1, lift at 1, params_item. rewrite Hpage.
  assert (Hgo : (match mp with
                 | None => ret true
                 | Some m => lift (py_lt page m)
                 end) h = (Return true, h)).
  { destruct mp as [m|]; [|reflexivity].
    unfold lift. rewrite (Hlt m eq_refl). reflexivity. }
  unfold bind at 1. rewrite Hgo.
  unfold bind at 1.
  rewrite (get_mentions_page_errors _ _ _ _ Hget Herr). reflexivity.
Qed.

Lemma iter_fetch_empty mp st h c :
  next_fetch mp st = Some c ->
  is_page (project self h c) [] ->
  mentions_iter self mp st h = (Return (inr (st_all st)), h ++ [c]).
Proof.
  intros Hnext Hpg.
  destruct (next_fetch_inv _ _ _ Hnext) as (page & Hpage & -> & Hlt).
  unfold mentions_iter.
  unfold bind at 1, lift at 1, params_item. rewrite Hpage.
  assert (Hgo : (match mp with
                 | None => ret true
                 | Some m => lift (py_lt page m)
                 end) h = (Return true, h)).
  { destruct mp as [m|]; [|reflexivity].
    unfold lift. rewrite (Hlt m eq_refl). reflexivity. }
  unfold bind at 1. rewrite Hgo.
  unfold bind at 1.
  rewrite (get_mentions_page_ok _ _ _ _ Hpg). reflexivity.
Qed.

Lemma iter_fetch_page mp st h c items page z :
  next_fetch mp st = Some c ->
  is_page (project self h c) items ->
  items <> [] ->
  st_params st !! "page" = Some page ->
  py_int page = Some z ->
  mentions_iter self mp st h
  = (Return (inl (LoopState (<["page" := VInt (z + 1)]> (st_params st))
                            (st_all st ++ items))),
     h ++ [c]).
Proof.
  intros Hnext Hpg Hne Hpage Hint.
  destruct (next_fetch_inv _ _ _ Hnext) as (page' & Hpage' & -> & Hlt).
  assert (page' = page) as -> by congruence.
  unfold mentions_iter.
  unfold bind at 1, lift at 1, params_item. rewrite Hpage.
  assert (Hgo : (match mp with
                 | None => ret true
                 | Some m => lift (py_lt page m)
                 end) h = (Return true, h)).
  { destruct mp as [m|]; [|reflexivity].
    unfold lift. rewrite (Hlt m eq_refl). reflexivity. }
  unfold bind at 1. rewrite Hgo.
  unfold bind at 1.
  rewrite (get_mentions_page_ok _ _ _ _ Hpg).
  cbn [py_seq].
  destruct items as [|x items]; [congruence|].
  cbn [List.length Nat.ltb Nat.leb].
  run_monad. rewrite lookup_insert_eq. unfold py_incr. rewrite Hint.
  rewrite insert_insert_eq. reflexivity.
Qed.

Lemma iter_cap_reached m st h page z :
  st_params st !! "page" = Some page ->
  py_int page = Some z ->
  m <= z ->
  mentions_iter self (Some m) st h = (Return (inr (st_all st)), h).
Proof.
  intros Hpage Hint Hle. unfold mentions_iter. run_monad.
  rewrite Hpage. unfold py_lt. rewrite Hint.
  destruct (z <? m) eqn:Hlt; [apply Z.ltb_lt in Hlt; lia|]. reflexivity.
Qed.

(** The loop resumes after [n] fetched pages with the budget that is left. *)
Lemma loop_run_pages n : forall mp st h st' h' k,
  run_pages self n mp st h = Some (st', h') ->
  mentions_loop self (n + k) mp st h = mentions_loop self k mp st' h'.
Proof.
  induction n as [|n IH]; intros mp st h st' h' k Hrun.
  - simpl in Hrun. injection Hrun as <- <-. reflexivity.
  - simpl in Hrun. simpl. unfold bind at 1.
    destruct (mentions_iter self mp st h) as [[[st1|all]|e|] h1];
      try discriminate.
    apply IH. exact Hrun.
Qed.

(** One iteration never runs out of budget. *)
Lemma iter_total mp st h :
  fst (mentions_iter self mp st h) <> OutOfFuel.
Proof.
  unfold mentions_iter, _get_mentions_page. run_monad.
  repeat (case_match; simpl in *; simplify_eq; try discriminate).
  all: unfold py_getitem in *; repeat (case_match; simplify_eq).
Qed.

(** An iteration that goes on has fetched a page below the cap and moved
    the page index to the next integer. *)
Lemma iter_continue_inv mp st h st' h' :
  mentions_iter self mp st h = (Return (inl st'), h') ->
  exists page z,
    st_params st !! "page" = Some page /\
    py_int page = Some z /\
    st_params st' !! "page" = Some (VInt (z + 1)) /\
    (forall m, mp = Some m -> z < m).
Proof.
  unfold mentions_iter, _get_mentions_page. run_monad.
  intros H.
  repeat (case_match; simpl in *; simplify_eq; try discriminate).
  all: rewrite lookup_insert_eq in *; simplify_eq.
  all: eexists _, _; split; [reflexivity|]; split; [eassumption|].
  all: split; [reflexivity|].
  all: intros m ?; simplify_eq; try (apply Z.ltb_lt; assumption).
Qed.

(** With a cap the loop ends within the pages that are left, plus the
    iteration whose test fails. *)
Lemma loop_cap_terminates m k : forall st h fuel,
  (pages_left m st <= k)%nat -> (k < fuel)%nat ->
  fst (mentions_loop self fuel (Some m) st h) <> OutOfFuel.
Proof.
  induction k as [|k IH]; intros st h fuel Hleft Hfuel;
    (destruct fuel as [|fuel]; [lia|]); simpl; unfold bind at 1;
    pose proof (iter_total (Some m) st h) as Htot;
    destruct (mentions_iter self (Some m) st h) as [[[st1|all]|e|] h1] eqn:Hit;
    simpl in *; try discriminate; try congruence.
  - apply iter_continue_inv in Hit as (page & z & Hp & Hz & _ & Hlt).
    specialize (Hlt m eq_refl).
    unfold pages_left in Hleft. rewrite Hp, Hz in Hleft. lia.
  - apply iter_continue_inv in Hit as (page & z & Hp & Hz & Hp1 & Hlt).
    specialize (Hlt m eq_refl).
    apply IH; [|lia].
    unfold pages_left in *. rewrite Hp, Hz in Hleft. rewrite Hp1. simpl. lia.
Qed.

(** An iteration issues no call, or the one call [next_fetch] names. *)
Lemma iter_calls mp st h :
  snd (mentions_iter self mp st h) = h \/
  exists c, next_fetch mp st = Some c /\ snd (mentions_iter self mp st h) = h ++ [c].
Proof.
  unfold mentions_iter, _get_mentions_page, next_fetch. run_monad.
  repeat (case_match; simpl in *; simplify_eq; try discriminate);
    first [left; reflexivity | right; eexists; split; reflexivity].
Qed.

(** Each of the [n] iterations counted by [run_pages] issued one call. *)
Lemma run_pages_history n : forall mp st h st' h',
  run_pages self n mp st h = Some (st', h') ->
  List.length h' = (List.length h + n)%nat.
Proof.
  induction n as [|n IH]; intros mp st h st' h' Hrun; simpl in Hrun.
  - injection Hrun as <- <-. lia.
  - destruct (mentions_iter self mp st h) as [[[st1|all]|e|] h1] eqn:Hit;
      try discriminate.
    apply IH in Hrun. rewrite Hrun.
    destruct (iter_calls mp st h) as [Hh | (c & _ & Hh)];
      rewrite Hit in Hh; simpl in Hh; subst h1.
    + apply iter_continue_inv in Hit as Hinv.
      exfalso. revert Hit. unfold mentions_iter, _get_mentions_page.
      run_monad. intros Hit.
      repeat (case_match; simpl in *; simplify_eq; try discriminate).
      all: match goal with
           | H : ?l ++ [_] = ?l |- _ =>
               apply (f_equal (@List.length call)) in H;
               rewrite length_app in H; simpl in H; lia
           end.
    + rewrite length_app. simpl. lia.
Qed.

(** With a cap [m] the loop issues at most as many calls as there are
    pages left below the cap. *)
Lemma loop_cap_calls m fuel : forall st h,
  (List.length (snd (mentions_loop self fuel (Some m) st h))
   <= List.length h + pages_left m st)%nat.
Proof.
  induction fuel as [|fuel IH]; intros st h; simpl; [lia|].
  unfold bind at 1.
  destruct (iter_calls (Some m) st h) as [Hh | (c & Hnext & Hh)].
  - destruct (mentions_iter self (Some m) st h) as [[[st1|all]|e|] h1] eqn:Hit;
      simpl in Hh; subst h1; simpl; try lia.
    apply iter_continue_inv in Hit as (page & z & Hp & Hz & Hp1 & Hlt).
    specialize (Hlt m eq_refl).
    etransitivity; [apply IH|].
    unfold pages_left. rewrite Hp, Hz, Hp1. simpl. lia.
  - assert (Hleft : (1 <= pages_left m st)%nat).
    { unfold next_fetch in Hnext. unfold pages_left.
      destruct (st_params st !! "page") as [page|]; [|discriminate].
      destruct (py_int page) as [z|]; [|discriminate].
      destruct (z <? m) eqn:Hlt; [|discriminate].
      apply Z.ltb_lt in Hlt. lia. }
    destruct (mentions_iter self (Some m) st h) as [[[st1|all]|e|] h1] eqn:Hit;
      simpl in Hh; subst h1; simpl; rewrite ?length_app; simpl; try lia.
    apply iter_continue_inv in Hit as (page & z & Hp & Hz & Hp1 & Hlt).
    specialize (Hlt m eq_refl).
    etransitivity; [apply IH|].
    rewrite length_app. simpl.
    unfold pages_left in *. rewrite Hp, Hz in Hleft. rewrite Hp, Hz, Hp1.
    simpl. lia.
Qed.

Lemma loop_step_continue fuel mp st h st' h' :
  mentions_iter self mp st h = (Return (inl st'), h') ->
  mentions_loop self (S fuel) mp st h = mentions_loop self fuel mp st' h'.
Proof. intros H. simpl. unfold bind. rewrite H. reflexivity. Qed.

Lemma loop_step_stop fuel mp st h all h' :
  mentions_iter self mp st h = (Return (inr all), h') ->
  mentions_loop self (S fuel) mp st h = (Return all, h').
Proof. intros H. simpl. unfold bind. rewrite H. reflexivity. Qed.

Lemma loop_step_raise fuel mp st h e h' :
  mentions_iter self mp st h = (Raise e, h') ->
  mentions_loop self (S fuel) mp st h = (Raise e, h').
Proof. intros H. simpl. unfold bind. rewrite H. reflexivity. Qed.

(** The iteration at an integer page index [k]. *)
Lemma next_fetch_at mp ps k all :
  (forall m, mp = Some m -> k < m) ->
  next_fetch mp (LoopState (<["page" := VInt k]> ps) all) = Some (page_call ps k).
Proof.
  intros Hcap. unfold next_fetch, page_call. simpl.
  rewrite lookup_insert_eq, insert_insert_eq.
  destruct mp as [m|]; [|reflexivity].
  simpl. specialize (Hcap m eq_refl). apply Z.ltb_lt in Hcap.
  rewrite Hcap. reflexivity.
Qed.

Lemma iter_page_at mp ps k all h items :
  (forall m, mp = Some m -> k < m) ->
  is_page (project self h (page_call ps k)) items ->
  items <> [] ->
  mentions_iter self mp (LoopState (<["page" := VInt k]> ps) all) h
  = (Return (inl (LoopState (<["page" := VInt (k + 1)]> ps) (all ++ items))),
     h ++ [page_call ps k]).
Proof.
  intros Hcap Hpg Hne.
  rewrite (iter_fetch_page mp _ h (page_call ps k) items (VInt k) k);
    try assumption.
  - simpl. rewrite insert_insert_eq. reflexivity.
  - apply next_fetch_at. exact Hcap.
  - simpl. apply lookup_insert_eq.
  - reflexivity.
Qed.

Lemma iter_empty_at mp ps k all h :
  (forall m, mp = Some m -> k < m) ->
  is_page (project self h (page_call ps k)) [] ->
  mentions_iter self mp (LoopState (<["page" := VInt k]> ps) all) h
  = (Return (inr all), h ++ [page_call ps k]).
Proof.
  intros Hcap Hpg.
  rewrite (iter_fetch_empty mp _ h (page_call ps k)); try assumption.
  - reflexivity.
  - apply next_fetch_at. exact Hcap.
Qed.

Lemma mentions_params_nil filled :
  mentions_params [] filled = <["page" := VInt 0]> (mentions_params [] filled).
Proof. unfold mentions_params. simpl. now rewrite insert_insert_eq. Qed.

End Pagination.

Section GetMentions.

Variable F : filters.
Variable self : BWData.
Variable today : Z.

Lemma fill_filters_total items : forall filled,
  fill_filters F self items filled <> OutOfFuel.
Proof.
  induction items as [|[param v] rest IH]; intros filled; simpl.
  - discriminate.
  - destruct (_valid_input F param (_name_to_id self param v));
      [apply IH | discriminate].
Qed.

Lemma fill_params_total name startDate data :
  _fill_params F self today name startDate data <> OutOfFuel.
Proof.
  unfold _fill_params.
  destruct name as [n|]; [|discriminate].
  destruct (negb (truthy_str (Some n))); [discriminate|].
  destruct (ids self !! n); [|discriminate].
  destruct (negb (truthy startDate)); [discriminate|].
  apply fill_filters_total.
Qed.

(** C1: with a valid name and start date, no [max_pages] and the default
    page and page size, against a transport whose answers to the three page
    fetches carry 5000, 5000 and 0 results in that order, [get_mentions]
    returns the two non-empty pages concatenated in page order, 10000
    mentions, and issues exactly the three page fetches for the pages 0, 1
    and 2. *)
Theorem get_mentions_three_pages (n : string) (id : Z) (startDate : value)
    (h : list call) (p0 p1 : list value) (fuel : nat) :
  let ps := mentions_params [] (default_params self today id startDate) in
  n <> "" -> ids self !! n = Some id -> truthy startDate = true ->
  List.length p0 = 5000%nat -> List.length p1 = 5000%nat ->
  is_page (project self h (page_call ps 0)) p0 ->
  is_page (project self (h ++ [page_call ps 0]) (page_call ps 1)) p1 ->
  is_page (project self (h ++ [page_call ps 0; page_call ps 1])
                   (page_call ps 2)) [] ->
  (3 <= fuel)%nat ->
  get_mentions F self today fuel (Some n) startDate None [] h
  = (Return (p0 ++ p1),
     h ++ [page_call ps 0; page_call ps 1; page_call ps 2]) /\
  List.length (p0 ++ p1) = 10000%nat.
Proof.
  intros ps Hn Hids Hsd Hl0 Hl1 Hp0 Hp1 Hp2 Hfuel.
  split; [|rewrite length_app, Hl0, Hl1; reflexivity].
  assert (Hne0 : p0 <> []) by (intros ->; discriminate).
  assert (Hne1 : p1 <> []) by (intros ->; discriminate).
  assert (Hcap : forall m : Z, @None Z = Some m -> False) by discriminate.
  unfold get_mentions.
  rewrite (fill_params_nil F self today n id startDate Hn Hids Hsd).
  rewrite bind_lift_return.
  destruct fuel as [|[|[|fuel]]]; try lia.
  rewrite (mentions_params_nil (default_params self today id startDate)).
  fold ps.
  erewrite loop_step_continue
    by (apply iter_page_at; [intros m Hm; discriminate | exact Hp0 | exact Hne0]).
  erewrite loop_step_continue
    by (apply iter_page_at; [intros m Hm; discriminate | exact Hp1 | exact Hne1]).
  erewrite loop_step_stop.
  2:{ apply iter_empty_at; [intros m Hm; discriminate|].
      rewrite <- app_assoc. exact Hp2. }
  rewrite <- !app_assoc. reflexivity.
Qed.

(** With a cap the call ends, whatever the transport answers. *)
Lemma get_mentions_cap_terminates name startDate m kw h :
  exists fuel0, forall fuel, (fuel0 <= fuel)%nat ->
    fst (get_mentions F self today fuel name startDate (Some m) kw h)
    <> OutOfFuel.
Proof.
  unfold get_mentions.
  pose proof (fill_params_total name startDate kw) as Htot.
  destruct (_fill_params F self today name startDate kw) as [filled|e|];
    [| exists O; intros; discriminate | congruence].
  exists (S (pages_left m (LoopState (mentions_params kw filled) []))).
  intros fuel Hfuel. rewrite bind_lift_return.
  eapply loop_cap_terminates; [reflexivity | lia].
Qed.

(** After [n] fetched pages, an empty page ends the call with what the
    [n] pages held. *)
Lemma get_mentions_empty_page name startDate mp kw filled n st h0 h c fuel :
  _fill_params F self today name startDate kw = Return filled ->
  run_pages self n mp (LoopState (mentions_params kw filled) []) h0
  = Some (st, h) ->
  next_fetch mp st = Some c ->
  is_page (project self h c) [] ->
  (n < fuel)%nat ->
  get_mentions F self today fuel name startDate mp kw h0
  = (Return (st_all st), h ++ [c]).
Proof.
  intros Hfill Hrun Hnext Hpg Hfuel.
  unfold get_mentions. rewrite Hfill, bind_lift_return.
  replace fuel with (n + S (fuel - S n))%nat by lia.
  rewrite (loop_run_pages self n _ _ _ _ _ _ Hrun).
  apply loop_step_stop. apply iter_fetch_empty; assumption.
Qed.

(** With a cap of [m] pages and the default starting page, the call
    issues at most [m] page fetches, whatever the transport answers. *)
Lemma get_mentions_cap_calls name startDate m fuel h :
  (List.length (snd (get_mentions F self today fuel name startDate (Some m) [] h))
   <= List.length h + Z.to_nat m)%nat.
Proof.
  unfold get_mentions.
  destruct (_fill_params F self today name startDate []) as [filled|e|];
    [| simpl; lia | simpl; lia].
  rewrite bind_lift_return.
  etransitivity; [apply loop_cap_calls|].
  unfold pages_left, mentions_params. simpl.
  rewrite lookup_insert_eq. simpl. lia.
Qed.

(** C2: with a valid name and start date, [max_pages = 2] and the default
    starting page, [get_mentions] issues exactly two page fetches when the
    two fetched pages are non-empty, whatever they hold, and never more
    than two, whatever the transport answers; for every [max_pages], a
    fetched empty page ends the loop at once; and the call terminates
    whenever [max_pages] is set or the transport answers some fetch of the
    run with an empty page. *)
Theorem get_mentions_cap_and_termination :
  (forall n id startDate h p0 p1 fuel,
     let ps := mentions_params [] (default_params self today id startDate) in
     n <> "" -> ids self !! n = Some id -> truthy startDate = true ->
     p0 <> [] -> p1 <> [] ->
     is_page (project self h (page_call ps 0)) p0 ->
     is_page (project self (h ++ [page_call ps 0]) (page_call ps 1)) p1 ->
     (3 <= fuel)%nat ->
     get_mentions F self today fuel (Some n) startDate (Some 2) [] h
     = (Return (p0 ++ p1), h ++ [page_call ps 0; page_call ps 1])) /\
  (forall name startDate h fuel,
     (List.length
        (snd (get_mentions F self today fuel name startDate (Some 2%Z) [] h))
      <= List.length h + 2)%nat) /\
  (forall mp st h c fuel,
     next_fetch mp st = Some c ->
     is_page (project self h c) [] ->
     mentions_loop self (S fuel) mp st h = (Return (st_all st), h ++ [c])) /\
  (forall name startDate m kw h,
     exists fuel0, forall fuel, (fuel0 <= fuel)%nat ->
       fst (get_mentions F self today fuel name startDate (Some m) kw h)
       <> OutOfFuel) /\
  (forall name startDate mp kw filled n st h0 h c,
     _fill_params F self today name startDate kw = Return filled ->
     run_pages self n mp (LoopState (mentions_params kw filled) []) h0
     = Some (st, h) ->
     next_fetch mp st = Some c ->
     is_page (project self h c) [] ->
     forall fuel, (n < fuel)%nat ->
       get_mentions F self today fuel name startDate mp kw h0
       = (Return (st_all st), h ++ [c])).
Proof.
  split; [|split; [|split; [|split]]].
  - intros n id startDate h p0 p1 fuel ps Hn Hids Hsd Hne0 Hne1 Hp0 Hp1 Hfuel.
    unfold get_mentions.
    rewrite (fill_params_nil F self today n id startDate Hn Hids Hsd).
    rewrite bind_lift_return.
    destruct fuel as [|[|[|fuel]]]; try lia.
    rewrite (mentions_params_nil (default_params self today id startDate)).
    fold ps.
    erewrite loop_step_continue
      by (apply iter_page_at;
          [intros m [= <-]; reflexivity | exact Hp0 | exact Hne0]).
    erewrite loop_step_continue
      by (apply iter_page_at;
          [intros m [= <-]; reflexivity | exact Hp1 | exact Hne1]).
    erewrite loop_step_stop.
    2:{ eapply (iter_cap_reached self 2 _ _ (VInt 2) 2);
        [apply lookup_insert_eq | reflexivity | lia]. }
    rewrite <- !app_assoc. reflexivity.
  - intros name startDate h fuel.
    apply (get_mentions_cap_calls name startDate 2 fuel h).
  - intros mp st h c fuel Hnext Hpg.
    apply loop_step_stop. apply iter_fetch_empty; assumption.
  - apply get_mentions_cap_terminates.
  - intros name startDate mp kw filled n st h0 h c Hfill Hrun Hnext Hpg fuel Hf.
    eapply get_mentions_empty_page; eassumption.
Qed.

(** C7: when, after any number of fetched pages, the answer to the next
    page fetch is an envelope with an [errors] key, [get_mentions] raises
    [MentionsFetchError] at that fetch, with no further call; the outcome
    is the exception alone, the mentions accumulated so far are not
    returned. *)
Theorem get_mentions_errors_abort (name : option string) (startDate : value)
    (mp : option Z) (kw : kwargs) (filled : gmap string value) (n : nat)
    (st : loop_state) (h0 h : list call) (c : call)
    (d : list (string * value)) (fuel : nat) :
  _fill_params F self today name startDate kw = Return filled ->
  run_pages self n mp (LoopState (mentions_params kw filled) []) h0
  = Some (st, h) ->
  next_fetch mp st = Some c ->
  project self h c = inr (VDict d) ->
  dict_mem "errors" d = true ->
  (n < fuel)%nat ->
  get_mentions F self today fuel name startDate mp kw h0
  = (Raise (MentionsFetchError (VDict d)), h ++ [c]).
Proof.
  intros Hfill Hrun Hnext Hget Herr Hfuel.
  unfold get_mentions. rewrite Hfill, bind_lift_return.
  replace fuel with (n + S (fuel - S n))%nat by lia.
  rewrite (loop_run_pages self n _ _ _ _ _ _ Hrun).
  apply loop_step_raise. apply iter_fetch_errors; assumption.
Qed.

End GetMentions.

(** ** Required arguments and the transport *)

Section Accessors.

Variable F : filters.
Variable self : BWData.
Variable today : Z.

(** An accessor whose first step is [_fill_params] fails as
    [_fill_params] does, on its own keyword filters or, for an aggregator,
    on the empty ones of its first sub-call, and leaves the history as it
    was. *)
Lemma accessor_fill_error a name startDate kw h :
  fills_first a = true ->
  exists data, forall e,
    _fill_params F self today name startDate data = Raise e ->
    call_accessor F self today a name startDate kw h = (Raise e, h).
Proof.
  intros Hff.
  destruct a; simpl in Hff; try discriminate;
    first
      [ exists kw; intros e He; simpl;
        unfold get_mentions, num_mentions, get_chart, get_topics,
          get_topics_comparison, get_authors, get_history, get_topsites,
          get_tweeters, get_volume, get_world, get_keyinsights_mention_count,
          get_keyinsights_author_count, get_keyinsights_topics,
          get_keyinsights_news, get_summary_sentiment, get_summary_topsites,
          get_summary_pagetypes, get_twitter_insights_feature,
          get_volume_group, get_fb_analytics_partial, get_fb_audience,
          get_fb_comments, get_fb_posts, get_ig_interactions_partial;
        rewrite ?Hff; simpl; unfold bind, lift; rewrite He; reflexivity
      | exists []; intros e He; simpl;
        unfold get_keyinsights, get_summary, get_twitter_insights,
          get_fb_analytics, get_ig_interactions,
          get_keyinsights_mention_count, get_summary_sentiment,
          get_twitter_insights_feature, get_fb_analytics_partial,
          get_ig_interactions_partial;
        simpl; unfold bind, lift; rewrite He; reflexivity ].
Qed.

(** C4, as the code has it: for every accessor whose first step is
    [_fill_params] (every one but the date-range comparison, the chart
    and the feature and metadata-type accessors being given their
    discriminating arguments), a falsy name, a name the registry does not
    know, and a falsy start date with a known name fail with the
    missing-name, unknown-entity and missing-start-date error, and the
    history of calls is unchanged.  The date-range comparison looks the
    name up first: a missing or unknown name fails there with the lookup's
    own [KeyError], before any call. *)
Theorem required_arguments_before_calls (a : accessor) (name : option string)
    (startDate : value) (kw : kwargs) (h : list call) :
  (fills_first a = true -> truthy_str name = false ->
   exists data,
     call_accessor F self today a name startDate kw h
     = (Raise (MissingNameError data), h)) /\
  (fills_first a = true ->
   forall n, name = Some n -> n <> "" -> ids self !! n = None ->
   call_accessor F self today a name startDate kw h
   = (Raise (UnknownEntityError
               ("Could not find " +:+ resource_type self +:+ " " +:+ n)), h)) /\
  (fills_first a = true ->
   forall n id, name = Some n -> n <> "" -> ids self !! n = Some id ->
   truthy startDate = false ->
   exists data,
     call_accessor F self today a name startDate kw h
     = (Raise (MissingStartDateError data), h)) /\
  (forall date_ranges,
   a = GetDateRangeComparison date_ranges ->
   match name with Some n => ids self !! n = None | None => True end ->
   call_accessor F self today a name startDate kw h
   = (Raise (PyKeyError (match name with Some n => VStr n | None => VNone end)),
      h)).
Proof.
  split; [|split; [|split]].
  - intros Hff Hname.
    destruct (accessor_fill_error a name startDate kw h Hff) as [data Hd].
    exists data. apply Hd. apply fill_params_missing_name. exact Hname.
  - intros Hff n -> Hn Hids.
    destruct (accessor_fill_error a (Some n) startDate kw h Hff) as [data Hd].
    apply Hd. apply fill_params_unknown; assumption.
  - intros Hff n id -> Hn Hids Hsd.
    destruct (accessor_fill_error a (Some n) startDate kw h Hff) as [data Hd].
    exists data. apply Hd. eapply fill_params_missing_start; eassumption.
  - intros date_ranges -> Hname. simpl. unfold get_date_range_comparison.
    destruct name as [n|]; [rewrite Hname|]; reflexivity.
Qed.

(** *** Date-range comparison *)

(** The date-range names that match nothing are reported as an invalid
    date range, after the one call that fetches the date ranges. *)
Lemma date_range_comparison_no_match n id startDate date_ranges kw h drs :
  ids self !! n = Some id ->
  project self h (Call ("queries/" +:+ str_of_Z id +:+ "/date-range") ∅)
  = inr (VList drs) ->
  select_date_range_ids drs date_ranges = Return [] ->
  get_date_range_comparison F self today (Some n) startDate date_ranges kw h
  = (Raise InvalidDateRangeError,
     h ++ [Call ("queries/" +:+ str_of_Z id +:+ "/date-range") ∅]).
Proof.
  intros Hids Hget Hsel. unfold get_date_range_comparison.
  rewrite Hids, bind_lift_return.
  unfold bind at 1, _get_date_ranges, get.
  change ("queries/" +:+ str_of_Z id +:+ "/" +:+ "date-range")
    with ("queries/" +:+ str_of_Z id +:+ "/date-range").
  rewrite Hget. simpl. rewrite Hsel. reflexivity.
Qed.

(** C8, at the failing input: without a [date_ranges] argument, as soon
    as the entity has a date range the comprehension tests its name against
    [None] and the call ends in a [TypeError]; the guard that would raise
    the invalid-date-range error is not reached. *)
Theorem date_range_comparison_without_ranges (n : string) (id : Z)
    (startDate : value) (kw : kwargs) (h : list call)
    (dr : value) (rest : list value) (nm : value) :
  ids self !! n = Some id ->
  project self h (Call ("queries/" +:+ str_of_Z id +:+ "/date-range") ∅)
  = inr (VList (dr :: rest)) ->
  py_getitem dr "name" = Return nm ->
  get_date_range_comparison F self today (Some n) startDate VNone kw h
  = (Raise PyTypeError,
     h ++ [Call ("queries/" +:+ str_of_Z id +:+ "/date-range") ∅]).
Proof.
  intros Hids Hget Hnm. unfold get_date_range_comparison.
  rewrite Hids, bind_lift_return.
  unfold bind at 1, _get_date_ranges, get.
  change ("queries/" +:+ str_of_Z id +:+ "/" +:+ "date-range")
    with ("queries/" +:+ str_of_Z id +:+ "/date-range").
  rewrite Hget. simpl. rewrite Hnm. reflexivity.
Qed.

End Accessors.

(** ** The composite aggregators *)

Section Issues.

Context {A B : Type}.
Variable P : call -> Prop.

Lemma issues_ret (a : A) : issues P (ret a).
Proof. intros h. exists []. simpl. rewrite app_nil_r. auto. Qed.

Lemma issues_raise (e : exn) : issues P (@raise A e).
Proof. intros h. exists []. simpl. rewrite app_nil_r. auto. Qed.

Lemma issues_lift (r : result A) : issues P (lift r).
Proof. intros h. exists []. simpl. rewrite app_nil_r. auto. Qed.

Lemma issues_bind (m : M A) (k : A -> M B) :
  issues P m -> (forall a, issues P (k a)) -> issues P (bind m k).
Proof.
  intros Hm Hk h. unfold bind.
  destruct (Hm h) as (cs & Hcs & HP).
  destruct (m h) as [[a|e|] h1]; simpl in Hcs; subst h1.
  - destruct (Hk a (h ++ cs)) as (cs' & Hcs' & HP').
    exists (cs ++ cs'). rewrite Hcs', app_assoc. split; [reflexivity|].
    apply Forall_app; auto.
  - exists cs. auto.
  - exists cs. auto.
Qed.

Lemma issues_bind_lift (r : result A) (k : A -> M B) :
  (forall a, r = Return a -> issues P (k a)) -> issues P (bind (lift r) k).
Proof.
  intros Hk h. destruct r as [a|e|].
  - rewrite bind_lift_return. apply Hk. reflexivity.
  - exists []. simpl. rewrite app_nil_r. auto.
  - exists []. simpl. rewrite app_nil_r. auto.
Qed.

End Issues.

Lemma issues_get (P : call -> Prop) self ep ps :
  P (Call ep ps) -> issues P (get self ep ps).
Proof. intros HP h. exists [Call ep ps]. simpl. auto. Qed.

Section Aggregators.

Variable F : filters.
Variable self : BWData.
Variable today : Z.

Ltac issues_steps :=
  repeat first
    [ apply issues_ret
    | apply issues_raise
    | apply issues_lift
    | apply issues_get; eexists; split; [eassumption | simpl; tauto]
    | apply issues_bind_lift; intros ? ?
    | apply issues_bind; [|intros ?] ].

Ltac sub_call_unfiltered :=
  unfold get_keyinsights_mention_count, get_keyinsights_author_count,
    get_keyinsights_topics, get_keyinsights_news, get_summary_sentiment,
    get_summary_topsites, get_summary_pagetypes, get_twitter_insights_feature,
    get_fb_analytics_partial, get_ig_interactions_partial;
  simpl; issues_steps.

(** Every call an aggregator issues carries parameters built from the
    name and the start date alone. *)
Lemma aggregators_issue_unfiltered name startDate kw :
  let P := unfiltered_call F self today name startDate in
  issues P (get_keyinsights F self today name startDate kw) /\
  issues P (get_summary F self today name startDate kw) /\
  issues P (get_twitter_insights F self today name startDate kw) /\
  issues P (get_fb_analytics F self today name startDate kw) /\
  issues P (get_ig_interactions F self today name startDate kw).
Proof.
  intros P. unfold P.
  repeat split;
    unfold get_keyinsights, get_summary, get_twitter_insights,
      get_fb_analytics, get_ig_interactions;
    repeat (apply issues_bind; [sub_call_unfiltered | intros ?]);
    apply issues_ret.
Qed.

(** C9: the composite aggregators accept keyword filters and do not
    forward them: for any two filter mappings, with the same name and
    start date and from the same history, each aggregator gives the same
    outcome and issues the same calls; and every call it issues carries
    parameters built from the name and the start date alone. *)
Theorem aggregators_ignore_filters (name : option string) (startDate : value)
    (k1 k2 : kwargs) (h : list call) :
  (get_keyinsights F self today name startDate k1 h
   = get_keyinsights F self today name startDate k2 h /\
   get_summary F self today name startDate k1 h
   = get_summary F self today name startDate k2 h /\
   get_twitter_insights F self today name startDate k1 h
   = get_twitter_insights F self today name startDate k2 h /\
   get_fb_analytics F self today name startDate k1 h
   = get_fb_analytics F self today name startDate k2 h /\
   get_ig_interactions F self today name startDate k1 h
   = get_ig_interactions F self today name startDate k2 h) /\
  (let P := unfiltered_call F self today name startDate in
   issues P (get_keyinsights F self today name startDate k1) /\
   issues P (get_summary F self today name startDate k1) /\
   issues P (get_twitter_insights F self today name startDate k1) /\
   issues P (get_fb_analytics F self today name startDate k1) /\
   issues P (get_ig_interactions F self today name startDate k1)).
Proof.
  split.
  - repeat split; reflexivity.
  - apply aggregators_issue_unfiltered.
Qed.

End Aggregators.

(** ** The statements at concrete inputs *)

Lemma get_mentions_three_pages_witness :
  get_mentions sample_filters (sample_self three_pages) sample_today 3
    (Some "q") sample_start None [] []
  = (Return (full_page ++ full_page),
     [] ++ [page_call (sample_params three_pages) 0;
            page_call (sample_params three_pages) 1;
            page_call (sample_params three_pages) 2]) /\
  List.length (full_page ++ full_page) = 10000%nat.
Proof.
  apply (get_mentions_three_pages sample_filters (sample_self three_pages)
           sample_today "q" 42 sample_start [] full_page full_page 3).
  - discriminate.
  - reflexivity.
  - reflexivity.
  - reflexivity.
  - reflexivity.
  - eexists. split; [reflexivity|]. split; reflexivity.
  - eexists. split; [reflexivity|]. split; reflexivity.
  - eexists. split; [reflexivity|]. split; reflexivity.
  - lia.
Defined.

Lemma get_mentions_cap_and_termination_witness :
  get_mentions sample_filters (sample_self endless_pages) sample_today 3
    (Some "q") sample_start (Some 2) [] []
  = (Return ([VStr "mention"] ++ [VStr "mention"]),
     [] ++ [page_call (sample_params endless_pages) 0;
            page_call (sample_params endless_pages) 1]) /\
  (List.length
     (snd (get_mentions sample_filters (sample_self endless_pages) sample_today
             9 (Some "q") sample_start (Some 2%Z) [] []))
   <= List.length (@nil call) + 2)%nat /\
  mentions_loop (sample_self three_pages) 1 (Some 7)
    (LoopState (<["page" := VInt 2]> (sample_params three_pages)) [VStr "kept"])
    [page_call (sample_params three_pages) 0;
     page_call (sample_params three_pages) 1]
  = (Return [VStr "kept"],
     [page_call (sample_params three_pages) 0;
      page_call (sample_params three_pages) 1]
     ++ [page_call (sample_params three_pages) 2]) /\
  (exists fuel0, forall fuel, (fuel0 <= fuel)%nat ->
     fst (get_mentions sample_filters (sample_self endless_pages) sample_today
            fuel (Some "q") sample_start (Some 2) [] [])
     <> OutOfFuel) /\
  get_mentions sample_filters (sample_self short_pages) sample_today 2
    (Some "q") sample_start None [] []
  = (Return [VStr "mention"],
     [page_call (sample_params short_pages) 0]
     ++ [page_call (sample_params short_pages) 1]).
Proof.
  pose proof (get_mentions_cap_and_termination sample_filters
                (sample_self endless_pages) sample_today)
    as (Hcap & Hmost & _ & Hterm & _).
  pose proof (get_mentions_cap_and_termination sample_filters
                (sample_self three_pages) sample_today)
    as (_ & _ & Hstop & _ & _).
  pose proof (get_mentions_cap_and_termination sample_filters
                (sample_self short_pages) sample_today)
    as (_ & _ & _ & _ & Hrun).
  split; [|split; [|split; [|split]]].
  - apply (Hcap "q" 42 sample_start [] [VStr "mention"] [VStr "mention"] 3%nat).
    + discriminate.
    + reflexivity.
    + reflexivity.
    + discriminate.
    + discriminate.
    + eexists. split; [reflexivity|]. split; reflexivity.
    + eexists. split; [reflexivity|]. split; reflexivity.
    + lia.
  - apply (Hmost (Some "q") sample_start [] 9%nat).
  - apply (Hstop (Some 7)
             (LoopState (<["page" := VInt 2]> (sample_params three_pages))
                        [VStr "kept"])).
    + reflexivity.
    + eexists. split; [reflexivity|]. split; reflexivity.
  - apply (Hterm (Some "q") sample_start 2 [] []).
  - apply (Hrun (Some "q") sample_start None []
             (default_params (sample_self short_pages) sample_today 42
                sample_start)
             1%nat
             (LoopState (<["page" := VInt 1]> (sample_params short_pages))
                        [VStr "mention"])
             [] [page_call (sample_params short_pages) 0]
             (page_call (sample_params short_pages) 1)).
    + reflexivity.
    + vm_compute. reflexivity.
    + vm_compute. reflexivity.
    + eexists. split; [reflexivity|]. split; reflexivity.
    + lia.
Defined.

Lemma fill_params_three_keys_witness :
  (exists filled,
     _fill_params sample_filters (sample_self three_pages) sample_today
       (Some "q") sample_start [] = Return filled /\
     dom filled = default_keys (sample_self three_pages) /\
     size filled = 3%nat /\
     filled !! "queryId" = Some (VInt 42) /\
     filled !! "startDate" = Some sample_start /\
     filled !! "endDate" = Some (VStr "2026-11-05")) /\
  (forall data filled,
     dict_get "endDate" data = None ->
     _fill_params sample_filters (sample_self three_pages) sample_today
       (Some "q") sample_start data = Return filled ->
     filled !! "endDate" = Some (VStr "2026-11-05")).
Proof.
  apply (fill_params_three_keys sample_filters (sample_self three_pages)
           sample_today "q" 42 sample_start).
  - discriminate.
  - reflexivity.
  - reflexivity.
  - discriminate.
  - discriminate.
Defined.

Lemma fill_params_check_order_witness :
  _fill_params sample_filters (sample_self three_pages) sample_today
    None VNone [] = Raise (MissingNameError []) /\
  _fill_params sample_filters (sample_self three_pages) sample_today
    (Some "") (VStr "") [] = Raise (MissingNameError []) /\
  _fill_params sample_filters (sample_self three_pages) sample_today
    (Some "unknown") VNone []
  = Raise (UnknownEntityError "Could not find query unknown") /\
  _fill_params sample_filters (sample_self three_pages) sample_today
    (Some "q") VNone [] = Raise (MissingStartDateError []).
Proof.
  split; [|split; [|split]].
  - apply (fill_params_check_order sample_filters (sample_self three_pages)
             sample_today None VNone []).
    reflexivity.
  - apply (fill_params_check_order sample_filters (sample_self three_pages)
             sample_today (Some "") (VStr "") []).
    reflexivity.
  - apply (proj1 (proj2 (fill_params_check_order sample_filters
                           (sample_self three_pages) sample_today
                           (Some "unknown") VNone [])) "unknown").
    + reflexivity.
    + discriminate.
    + reflexivity.
  - apply (proj2 (proj2 (fill_params_check_order sample_filters
                           (sample_self three_pages) sample_today
                           (Some "q") VNone [])) "q" 42).
    + reflexivity.
    + discriminate.
    + reflexivity.
    + reflexivity.
Defined.

(** The claim of C5 about sequences fails: every element of the list is a
    legal value of ["sentiment"], and the list is rejected. *)
Lemma valid_input_sequence_counterexample :
  ~ (forall (F : filters) (p : string) (options l : list value),
       special_options F !! p = Some options ->
       (_valid_input F p (VList l) = true <->
        Forall (fun x => list_contains x options = true) l)).
Proof.
  intros Hclaim.
  specialize (Hclaim enum_filters "sentiment"
                [VStr "positive"; VStr "negative"; VStr "neutral"]
                [VStr "positive"; VStr "negative"] eq_refl).
  destruct Hclaim as [_ Hall].
  assert (Hv : _valid_input enum_filters "sentiment"
                 (VList [VStr "positive"; VStr "negative"]) = true).
  { apply Hall. repeat constructor. }
  vm_compute in Hv. discriminate.
Qed.

Lemma valid_input_enumerated_witness :
  (_valid_input sample_filters "sentiment" (VStr "positive") = true) /\
  (_valid_input sample_filters "sentiment" (VStr "meh") = true -> False) /\
  _fill_params sample_filters (sample_self three_pages) sample_today
    (Some "q") sample_start
    ([("twitterRetweetsMin", VInt 20)]
     ++ ("sentiment", VList [VStr "positive"]) :: [("sentiment2", VNone)])
  = Raise (InvalidFilterError "sentiment").
Proof.
  pose proof (valid_input_enumerated sample_filters (sample_self three_pages)
                sample_today "sentiment"
                [VStr "positive"; VStr "negative"; VStr "neutral"] eq_refl)
    as (Hiff & _ & Hfill).
  split; [|split].
  - apply Hiff. split.
    + intros T HT. vm_compute in HT. injection HT as <-. reflexivity.
    + reflexivity.
  - intros Hv. apply Hiff in Hv. destruct Hv as [_ Hin].
    vm_compute in Hin. discriminate.
  - apply (Hfill "q" 42 sample_start).
    + discriminate.
    + reflexivity.
    + reflexivity.
    + repeat constructor.
    + reflexivity.
Defined.



Lemma get_mentions_errors_abort_witness :
  get_mentions sample_filters (sample_self failing_second_page) sample_today 2
    (Some "q") sample_start None [] []
  = (Raise (MentionsFetchError
              (VDict [("errors", VList [VStr "rate limit"])])),
     [page_call (sample_params failing_second_page) 0]
     ++ [page_call (sample_params failing_second_page) 1]).
Proof.
  apply (get_mentions_errors_abort sample_filters
           (sample_self failing_second_page) sample_today
           (Some "q") sample_start None []
           (default_params (sample_self failing_second_page) sample_today 42
              sample_start)
           1%nat
           (LoopState (<["page" := VInt 1]> (sample_params failing_second_page))
                      [VStr "mention"])
           [] [page_call (sample_params failing_second_page) 0]
           (page_call (sample_params failing_second_page) 1)).
  - reflexivity.
  - vm_compute. reflexivity.
  - vm_compute. reflexivity.
  - reflexivity.
  - reflexivity.
  - lia.
Defined.

(** The claim of C4 fails for the date-range comparison: with a known
    name and no start date, the date ranges are fetched before the call
    fails. *)
Lemma required_arguments_counterexample :
  ~ (forall (F : filters) (self : BWData) (today : Z) (a : accessor)
            (name : option string) (startDate : value) (kw : kwargs)
            (h : list call),
       truthy startDate = false ->
       exists e,
         call_accessor F self today a name startDate kw h = (Raise e, h)).
Proof.
  intros Hclaim.
  destruct (Hclaim sample_filters (sample_self one_date_range) sample_today
              (GetDateRangeComparison (VList [VStr "last week"]))
              (Some "q") VNone [] [] eq_refl) as (e & He).
  vm_compute in He. discriminate.
Qed.

Lemma required_arguments_before_calls_witness :
  (exists data,
     call_accessor sample_filters (sample_self one_date_range) sample_today
       GetSummary None sample_start [("sentiment", VStr "positive")] []
     = (Raise (MissingNameError data), [])) /\
  call_accessor sample_filters (sample_self one_date_range) sample_today
    (GetMentions 5 None) (Some "unknown") VNone [] []
  = (Raise (UnknownEntityError "Could not find query unknown"), []) /\
  (exists data,
     call_accessor sample_filters (sample_self one_date_range) sample_today
       (GetChart (Some "volume") (Some "days") (Some "sentiment"))
       (Some "q") VNone [] []
     = (Raise (MissingStartDateError data), [])) /\
  call_accessor sample_filters (sample_self one_date_range) sample_today
    (GetDateRangeComparison VNone) (Some "unknown") VNone [] []
  = (Raise (PyKeyError (VStr "unknown")), []).
Proof.
  split; [|split; [|split]].
  - apply (required_arguments_before_calls sample_filters
             (sample_self one_date_range) sample_today GetSummary None
             sample_start [("sentiment", VStr "positive")] []);
      reflexivity.
  - apply (proj1 (proj2 (required_arguments_before_calls sample_filters
                           (sample_self one_date_range) sample_today
                           (GetMentions 5 None) (Some "unknown") VNone [] []))
             eq_refl "unknown" eq_refl).
    + discriminate.
    + reflexivity.
  - apply (proj1 (proj2 (proj2 (required_arguments_before_calls sample_filters
                           (sample_self one_date_range) sample_today
                           (GetChart (Some "volume") (Some "days")
                                     (Some "sentiment"))
                           (Some "q") VNone [] [])))
             eq_refl "q" 42 eq_refl).
    + discriminate.
    + reflexivity.
    + reflexivity.
  - apply (proj2 (proj2 (proj2 (required_arguments_before_calls sample_filters
                           (sample_self one_date_range) sample_today
                           (GetDateRangeComparison VNone)
                           (Some "unknown") VNone [] [])))
             VNone eq_refl).
    reflexivity.
Defined.

Lemma date_range_comparison_without_ranges_witness :
  get_date_range_comparison sample_filters (sample_self one_date_range)
    sample_today (Some "q") sample_start VNone [] []
  = (Raise PyTypeError, [] ++ [Call "queries/42/date-range" ∅]).
Proof.
  apply (date_range_comparison_without_ranges sample_filters
           (sample_self one_date_range) sample_today "q" 42 sample_start [] []
           (VDict [("id", VInt 7); ("name", VStr "last week")]) []
           (VStr "last week")).
  - reflexivity.
  - reflexivity.
  - reflexivity.
Defined.

(** * Further properties of the class *)

(** ** What a filled parameter set holds *)

Section FilledParams.

Variable F : filters.
Variable self : BWData.
Variable today : Z.

Lemma dict_get_in {A : Type} k (v : A) (d : list (string * A)) :
  dict_get k d = Some v -> In (k, v) d.
Proof.
  induction d as [|[k' v'] d IH]; simpl; [discriminate|].
  destruct (String.eqb k k') eqn:Hk.
  - apply String.eqb_eq in Hk. intros [= <-]. left. congruence.
  - intros H. right. apply IH. exact H.
Qed.

Lemma dict_get_none_keys {A : Type} k (d : list (string * A)) :
  dict_get k d = None <-> k ∉ map fst d.
Proof.
  induction d as [|[k' v'] d IH]; simpl.
  - split; [intros _; apply not_elem_of_nil | reflexivity].
  - rewrite not_elem_of_cons.
    destruct (String.eqb k k') eqn:Hk.
    + apply String.eqb_eq in Hk. split; [discriminate|].
      intros [H _]. congruence.
    + apply String.eqb_neq in Hk. rewrite IH. tauto.
Qed.

(** The filter loop, when every filter is accepted, is a fold of inserts. *)
Lemma fill_filters_accepted items : forall filled,
  Forall (accepted F self) items ->
  exists filled', fill_filters F self items filled = Return filled'.
Proof.
  induction items as [|[p v] rest IH]; intros filled Hall; simpl.
  - eexists. reflexivity.
  - inversion Hall as [|? ? Hp Hrest]; subst.
    unfold accepted in Hp. simpl in Hp. rewrite Hp. apply IH. exact Hrest.
Qed.

Lemma fill_filters_returned items : forall filled filled',
  fill_filters F self items filled = Return filled' ->
  Forall (accepted F self) items.
Proof.
  induction items as [|[p v] rest IH]; intros filled filled' Hrun;
    simpl in Hrun.
  - constructor.
  - destruct (_valid_input F p (_name_to_id self p v)) eqn:Hp; [|discriminate].
    constructor; [exact Hp | eapply IH; exact Hrun].
Qed.

(** A failure of the loop names the first filter that is not accepted. *)
Lemma fill_filters_raise items : forall filled e,
  fill_filters F self items filled = Raise e ->
  exists pre p v post,
    items = pre ++ (p, v) :: post /\
    Forall (accepted F self) pre /\
    _valid_input F p (_name_to_id self p v) = false /\
    e = InvalidFilterError p.
Proof.
  induction items as [|[p v] rest IH]; intros filled e Hrun; simpl in Hrun.
  - discriminate.
  - destruct (_valid_input F p (_name_to_id self p v)) eqn:Hp.
    + destruct (IH _ _ Hrun) as (pre & q & w & post & -> & Hpre & Hq & ->).
      exists ((p, v) :: pre), q, w, post. repeat split; try assumption.
      constructor; [exact Hp | exact Hpre].
    + injection Hrun as <-.
      exists [], p, v, rest. repeat split; [constructor | exact Hp].
Qed.

Lemma fill_filters_lookup items : forall filled filled' k,
  NoDup (map fst items) ->
  fill_filters F self items filled = Return filled' ->
  filled' !! k
  = match dict_get k items with
    | Some v => Some (_name_to_id self k v)
    | None => filled !! k
    end.
Proof.
  induction items as [|[p v] rest IH]; intros filled filled' k Hnd Hrun;
    simpl in *.
  - congruence.
  - inversion Hnd as [|? ? Hnotin Hnd']; subst.
    destruct (_valid_input F p (_name_to_id self p v)); [|discriminate].
    rewrite (IH _ _ k Hnd' Hrun).
    destruct (String.eqb k p) eqn:Hk.
    + apply String.eqb_eq in Hk. subst k.
      apply dict_get_none_keys in Hnotin. rewrite Hnotin.
      apply lookup_insert_eq.
    + apply String.eqb_neq in Hk.
      destruct (dict_get k rest); [reflexivity|].
      apply lookup_insert_ne. congruence.
Qed.

Lemma fill_filters_dom items : forall filled filled',
  fill_filters F self items filled = Return filled' ->
  dom filled' = dom filled ∪ filter_keys items.
Proof.
  induction items as [|[p v] rest IH]; intros filled filled' Hrun;
    simpl in Hrun.
  - injection Hrun as <-. unfold filter_keys. simpl.
    apply set_eq. intros k. rewrite elem_of_union, elem_of_empty. tauto.
  - destruct (_valid_input F p (_name_to_id self p v)); [|discriminate].
    rewrite (IH _ _ Hrun), dom_insert_L. unfold filter_keys. simpl.
    apply set_eq. intros k.
    rewrite !elem_of_union, elem_of_singleton. tauto.
Qed.

(** X1: With valid required arguments the call returns exactly when every
    filter is accepted after resolution; when it fails, the error names
    the first filter, in the caller's order, that is not. *)
Theorem fill_params_returns_iff (n : string) (id : Z) (startDate : value)
    (data : kwargs) :
  n <> "" -> ids self !! n = Some id -> truthy startDate = true ->
  ((exists filled,
      _fill_params F self today (Some n) startDate data = Return filled)
   <-> Forall (accepted F self) data) /\
  (forall e,
     _fill_params F self today (Some n) startDate data = Raise e ->
     exists pre p v post,
       data = pre ++ (p, v) :: post /\
       Forall (accepted F self) pre /\
       _valid_input F p (_name_to_id self p v) = false /\
       e = InvalidFilterError p).
Proof.
  intros Hn Hids Hsd.
  assert (Hrun : exists filled0,
            _fill_params F self today (Some n) startDate data
            = fill_filters F self data filled0).
  { unfold _fill_params, truthy_str.
    apply String.eqb_neq in Hn. rewrite Hn. simpl. rewrite Hids, Hsd. simpl.
    eexists. reflexivity. }
  destruct Hrun as [filled0 Hrun]. rewrite Hrun. split; [split|].
  - intros [filled Hret]. eapply fill_filters_returned. exact Hret.
  - apply fill_filters_accepted.
  - apply fill_filters_raise.
Qed.

(** X2: The entries of a filled parameter set: a filter of the caller is
    bound to its resolved value, also when it is named like the start
    date, the end date or the resource id key, whose values it then
    replaces; every other key keeps its default.  No other key is
    there. *)
Theorem fill_params_entries (n : string) (id : Z) (startDate : value)
    (data : kwargs) (filled : gmap string value) :
  ids self !! n = Some id ->
  NoDup (map fst data) ->
  _fill_params F self today (Some n) startDate data = Return filled ->
  (forall k,
     filled !! k
     = match dict_get k data with
       | Some v => Some (_name_to_id self k v)
       | None => default_params self today id startDate !! k
       end) /\
  dom filled = default_keys self ∪ filter_keys data.
Proof.
  intros Hids Hnd Hrun. unfold _fill_params in Hrun.
  destruct (negb (truthy_str (Some n))); [discriminate|].
  rewrite Hids in Hrun.
  destruct (negb (truthy startDate)); [discriminate|].
  split.
  - intros k. rewrite (fill_filters_lookup _ _ _ k Hnd Hrun).
    destruct (dict_get k data) as [v|] eqn:Hk; [reflexivity|].
    unfold default_params.
    destruct (dict_get "orderDirection" data) as [od|] eqn:Hod.
    { rewrite lookup_insert_ne by (intros <-; congruence).
      destruct (dict_get "orderBy" data) as [ob|] eqn:Hob.
      { rewrite lookup_insert_ne by (intros <-; congruence).
        destruct (dict_get "endDate" data) as [ed|] eqn:Hed; [|reflexivity].
        rewrite !(lookup_insert_ne _ "endDate" k) by (intros <-; congruence).
        reflexivity. }
      destruct (dict_get "endDate" data) as [ed|] eqn:Hed; [|reflexivity].
      rewrite !(lookup_insert_ne _ "endDate" k) by (intros <-; congruence).
      reflexivity. }
    destruct (dict_get "orderBy" data) as [ob|] eqn:Hob.
    { rewrite lookup_insert_ne by (intros <-; congruence).
      destruct (dict_get "endDate" data) as [ed|] eqn:Hed; [|reflexivity].
      rewrite !(lookup_insert_ne _ "endDate" k) by (intros <-; congruence).
      reflexivity. }
    destruct (dict_get "endDate" data) as [ed|] eqn:Hed; [|reflexivity].
    rewrite !(lookup_insert_ne _ "endDate" k) by (intros <-; congruence).
    reflexivity.
  - rewrite (fill_filters_dom _ _ _ Hrun).
    assert (Hkey : forall k v, dict_get k data = Some v -> k ∈ filter_keys data).
    { intros k v Hk. apply dict_get_in in Hk. unfold filter_keys.
      apply elem_of_list_to_set, list_elem_of_In, in_map_iff.
      exists (k, v). split; [reflexivity | exact Hk]. }
    apply set_eq. intros k. unfold default_keys.
    destruct (dict_get "orderDirection" data) as [od|] eqn:Hod;
      destruct (dict_get "orderBy" data) as [ob|] eqn:Hob;
      rewrite ?dom_insert_L, dom_empty_L;
      rewrite ?elem_of_union, ?elem_of_singleton, ?elem_of_empty;
      try (specialize (Hkey _ _ Hod) as Hk1);
      try (specialize (Hkey _ _ Hob) as Hk2);
      split; intros H; intuition (subst; auto).
Qed.

End FilledParams.

Lemma fill_params_returns_iff_witness :
  ((exists filled,
      _fill_params sample_filters (sample_self short_pages) sample_today
        (Some "q") sample_start
        [("twitterRetweetsMin", VInt 20); ("sentiment", VStr "glad");
         ("orderBy", VInt 1)]
      = Return filled)
   <-> Forall (accepted sample_filters (sample_self short_pages))
         [("twitterRetweetsMin", VInt 20); ("sentiment", VStr "glad");
          ("orderBy", VInt 1)]) /\
  (forall e,
     _fill_params sample_filters (sample_self short_pages) sample_today
       (Some "q") sample_start
       [("twitterRetweetsMin", VInt 20); ("sentiment", VStr "glad");
        ("orderBy", VInt 1)]
     = Raise e ->
     exists pre p v post,
       [("twitterRetweetsMin", VInt 20); ("sentiment", VStr "glad");
        ("orderBy", VInt 1)] = pre ++ (p, v) :: post /\
       Forall (accepted sample_filters (sample_self short_pages)) pre /\
       _valid_input sample_filters p
         (_name_to_id (sample_self short_pages) p v) = false /\
       e = InvalidFilterError p).
Proof.
  apply (fill_params_returns_iff sample_filters (sample_self short_pages)
           sample_today "q" 42 sample_start).
  - discriminate.
  - reflexivity.
  - reflexivity.
Defined.

Lemma fill_params_entries_witness :
  let filled : gmap string value :=
    <["endDate" := VStr "2026-11-01"]>
      (<["queryId" := VInt 7]>
         (default_params (sample_self short_pages) sample_today 42 sample_start)) in
  (forall k,
     filled !! k
     = match dict_get k [("queryId", VInt 7); ("endDate", VStr "2026-11-01")] with
       | Some v => Some (_name_to_id (sample_self short_pages) k v)
       | None =>
           default_params (sample_self short_pages) sample_today 42 sample_start
           !! k
       end) /\
  dom filled
  = default_keys (sample_self short_pages)
    ∪ filter_keys [("queryId", VInt 7); ("endDate", VStr "2026-11-01")].
Proof.
  intros filled.
  apply (fill_params_entries sample_filters (sample_self short_pages)
           sample_today "q" 42 sample_start
           [("queryId", VInt 7); ("endDate", VStr "2026-11-01")] filled).
  - reflexivity.
  - apply NoDup_ListNoDup. repeat constructor; simpl; intuition discriminate.
  - vm_compute. reflexivity.
Defined.

(** ** More on the pagination *)

Section MorePagination.

Variable self : BWData.

Lemma page_calls_front ps z n :
  page_calls ps z (S n) = page_call ps z :: page_calls ps (z + 1) n.
Proof.
  unfold page_calls. simpl. rewrite Z.add_0_r. f_equal.
  rewrite <- seq_shift, map_map. apply map_ext. intros i.
  f_equal. lia.
Qed.

(** [n] non-empty pages in a row move the loop [n] iterations on. *)
Lemma loop_fetch_pages mp ps pages : forall z all h fuel,
  Forall (fun p => p <> []) pages ->
  (forall k, (k < List.length pages)%nat ->
     is_page (project self (h ++ page_calls ps z k)
                      (page_call ps (z + Z.of_nat k)))
             (nth k pages [])) ->
  (forall m, mp = Some m -> z + Z.of_nat (List.length pages) <= m) ->
  mentions_loop self (List.length pages + fuel) mp
    (LoopState (<["page" := VInt z]> ps) all) h
  = mentions_loop self fuel mp
      (LoopState (<["page" := VInt (z + Z.of_nat (List.length pages))]> ps)
                 (all ++ concat pages))
      (h ++ page_calls ps z (List.length pages)).
Proof.
  induction pages as [|p rest IH]; intros z all h fuel Hne Hpages Hcap.
  - simpl. rewrite Z.add_0_r, !app_nil_r. reflexivity.
  - inversion Hne as [|? ? Hp Hrest]; subst.
    change (List.length (p :: rest) + fuel)%nat
      with (S (List.length rest + fuel)).
    rewrite (loop_step_continue self _ mp _ h
               (LoopState (<["page" := VInt (z + 1)]> ps) (all ++ p))
               (h ++ [page_call ps z])).
    2:{ apply iter_page_at.
        - intros m Hm. specialize (Hcap m Hm). simpl in Hcap. lia.
        - specialize (Hpages O ltac:(simpl; lia)).
          simpl in Hpages. rewrite Z.add_0_r, app_nil_r in Hpages.
          exact Hpages.
        - exact Hp. }
    rewrite IH.
    + change (List.length (p :: rest)) with (S (List.length rest)).
      rewrite page_calls_front. simpl concat.
      rewrite <- !app_assoc. simpl app.
      replace (z + 1 + Z.of_nat (List.length rest))
        with (z + Z.of_nat (S (List.length rest))) by lia.
      reflexivity.
    + exact Hrest.
    + intros k Hk. specialize (Hpages (S k) ltac:(simpl; lia)).
      rewrite page_calls_front in Hpages. simpl nth in Hpages.
      rewrite <- app_assoc. simpl.
      replace (z + 1 + Z.of_nat k) with (z + Z.of_nat (S k)) by lia.
      exact Hpages.
    + intros m Hm. specialize (Hcap m Hm). simpl List.length in Hcap. lia.
Qed.

(** What an iteration that goes on leaves behind. *)
Lemma iter_continue_state mp st h st' h' :
  mentions_iter self mp st h = (Return (inl st'), h') ->
  exists page z items,
    st_params st !! "page" = Some page /\
    py_int page = Some z /\
    st_params st' = <["page" := VInt (z + 1)]> (<["page" := page]> (st_params st)) /\
    st_all st' = st_all st ++ items /\
    h' = h ++ [Call "data/mentions/fulltext" (<["page" := page]> (st_params st))] /\
    (forall m, mp = Some m -> z < m).
Proof.
  unfold mentions_iter, _get_mentions_page.
  unfold bind, lift, ret, raise, params_item, py_lt, py_incr, get; simpl.
  intros H.
  repeat (case_match; simpl in *; simplify_eq; try discriminate).
  all: rewrite lookup_insert_eq in *; simplify_eq.
  all: eexists _, _, _; split; [reflexivity|]; split; [eassumption|].
  all: repeat (split; [reflexivity|]).
  all: intros m ?; simplify_eq; try (apply Z.ltb_lt; assumption).
Qed.

(** From an integer page index on, the loop fetches consecutive pages with
    parameters that differ in the page index only, and stays below the
    cap. *)
Lemma loop_calls_shape mp ps fuel : forall z all h,
  exists n,
    snd (mentions_loop self fuel mp (LoopState (<["page" := VInt z]> ps) all) h)
    = h ++ page_calls ps z n /\
    (forall m, mp = Some m -> (n <= Z.to_nat (m - z))%nat).
Proof.
  induction fuel as [|fuel IH]; intros z all h.
  - exists O. simpl. rewrite app_nil_r. split; [reflexivity | intros; lia].
  - simpl. unfold bind at 1.
    destruct (mentions_iter self mp (LoopState (<["page" := VInt z]> ps) all) h)
      as [[[st1|res]|e|] h1] eqn:Hit; cbv beta iota zeta.
    + apply iter_continue_state in Hit
        as (page & z' & items & Hp & Hz & Hps & _ & -> & Hcap).
      simpl in Hp. rewrite lookup_insert_eq in Hp. injection Hp as <-.
      simpl in Hz. injection Hz as <-.
      simpl in Hps. rewrite !insert_insert_eq in Hps.
      destruct st1 as [ps1 all1]. simpl in Hps. subst ps1.
      cbn [st_params]. rewrite insert_insert_eq.
      destruct (IH (z + 1) all1
                  (h ++ [Call "data/mentions/fulltext" (<["page" := VInt z]> ps)]))
        as (n & Hn & Hbound).
      exists (S n). rewrite Hn, page_calls_front, <- app_assoc.
      split; [reflexivity|].
      intros m Hm. specialize (Hbound m Hm). specialize (Hcap m Hm). lia.
    + destruct (iter_calls self mp (LoopState (<["page" := VInt z]> ps) all) h)
        as [Hh | (c & Hnext & Hh)]; rewrite Hit in Hh; simpl in Hh; subst h1.
      * exists O. simpl. rewrite app_nil_r. split; [reflexivity | intros; lia].
      * apply next_fetch_inv in Hnext as (page & Hp & -> & Hlt).
        simpl in Hp. rewrite lookup_insert_eq in Hp. injection Hp as <-.
        simpl. rewrite insert_insert_eq.
        exists 1%nat. split.
        { unfold page_calls. simpl. rewrite Z.add_0_r. reflexivity. }
        intros m Hm. specialize (Hlt m Hm). unfold py_lt in Hlt. simpl in Hlt.
        injection Hlt as Hlt. apply Z.ltb_lt in Hlt. lia.
    + destruct (iter_calls self mp (LoopState (<["page" := VInt z]> ps) all) h)
        as [Hh | (c & Hnext & Hh)]; rewrite Hit in Hh; simpl in Hh; subst h1.
      * exists O. simpl. rewrite app_nil_r. split; [reflexivity | intros; lia].
      * apply next_fetch_inv in Hnext as (page & Hp & -> & Hlt).
        simpl in Hp. rewrite lookup_insert_eq in Hp. injection Hp as <-.
        simpl. rewrite insert_insert_eq.
        exists 1%nat. split.
        { unfold page_calls. simpl. rewrite Z.add_0_r. reflexivity. }
        intros m Hm. specialize (Hlt m Hm). unfold py_lt in Hlt. simpl in Hlt.
        injection Hlt as Hlt. apply Z.ltb_lt in Hlt. lia.
    + exfalso. pose proof (iter_total self mp
                             (LoopState (<["page" := VInt z]> ps) all) h) as Ht.
      rewrite Hit in Ht. apply Ht. reflexivity.
Qed.

(** A fetch that the transport fails, and an envelope without [results]. *)
Lemma iter_fetch_raise mp st h c e :
  next_fetch mp st = Some c ->
  project self h c = inl e ->
  mentions_iter self mp st h = (Raise e, h ++ [c]).
Proof.
  intros Hnext Hget.
  destruct (next_fetch_inv _ _ _ Hnext) as (page & Hpage & -> & Hlt).
  unfold mentions_iter.
  unfold bind at 1, lift at 1, params_item. rewrite Hpage.
  assert (Hgo : (match mp with
                 | None => ret true
                 | Some m => lift (py_lt page m)
                 end) h = (Return true, h)).
  { destruct mp as [m|]; [|reflexivity].
    unfold lift. rewrite (Hlt m eq_refl). reflexivity. }
  unfold bind at 1. rewrite Hgo.
  unfold bind at 1, _get_mentions_page, bind, get. rewrite Hget. reflexivity.
Qed.

Lemma iter_fetch_no_results mp st h c d :
  next_fetch mp st = Some c ->
  project self h c = inr (VDict d) ->
  dict_mem "errors" d = false ->
  dict_get "results" d = None ->
  mentions_iter self mp st h = (Raise (PyKeyError (VStr "results")), h ++ [c]).
Proof.
  intros Hnext Hget Herr Hres.
  destruct (next_fetch_inv _ _ _ Hnext) as (page & Hpage & -> & Hlt).
  unfold mentions_iter.
  unfold bind at 1, lift at 1, params_item. rewrite Hpage.
  assert (Hgo : (match mp with
                 | None => ret true
                 | Some m => lift (py_lt page m)
                 end) h = (Return true, h)).
  { destruct mp as [m|]; [|reflexivity].
    unfold lift. rewrite (Hlt m eq_refl). reflexivity. }
  unfold bind at 1. rewrite Hgo.
  unfold bind at 1, _get_mentions_page, bind, get, lift, py_getitem.
  rewrite Hget. simpl. rewrite Herr, Hres. reflexivity.
Qed.

End MorePagination.

Section MoreGetMentions.

Variable F : filters.
Variable self : BWData.
Variable today : Z.

Lemma page_calls_back ps z n :
  page_calls ps z (S n) = page_calls ps z n ++ [page_call ps (z + Z.of_nat n)].
Proof. unfold page_calls. rewrite seq_S, map_app. reflexivity. Qed.

(** X4: Without [max_pages], against a transport that answers the fetches of
    the pages 0, 1, ... with the non-empty [pages] in turn and then with an
    empty page, [get_mentions] returns all the pages concatenated in order
    and issues one fetch per page and one more for the empty page. *)
Theorem get_mentions_all_pages (n : string) (id : Z) (startDate : value)
    (h : list call) (pages : list (list value)) (fuel : nat) :
  let ps := mentions_params [] (default_params self today id startDate) in
  n <> "" -> ids self !! n = Some id -> truthy startDate = true ->
  Forall (fun p => p <> []) pages ->
  (forall k, (k < List.length pages)%nat ->
     is_page (project self (h ++ page_calls ps 0 k) (page_call ps (Z.of_nat k)))
             (nth k pages [])) ->
  is_page (project self (h ++ page_calls ps 0 (List.length pages))
                   (page_call ps (Z.of_nat (List.length pages)))) [] ->
  (List.length pages < fuel)%nat ->
  get_mentions F self today fuel (Some n) startDate None [] h
  = (Return (concat pages), h ++ page_calls ps 0 (S (List.length pages))).
Proof.
  intros ps Hn Hids Hsd Hne Hpages Hlast Hfuel.
  unfold get_mentions.
  rewrite (fill_params_nil F self today n id startDate Hn Hids Hsd).
  rewrite bind_lift_return.
  rewrite (mentions_params_nil (default_params self today id startDate)).
  fold ps.
  replace fuel with (List.length pages + S (fuel - S (List.length pages)))%nat
    by lia.
  rewrite (loop_fetch_pages self None ps pages 0 [] h); try assumption.
  - erewrite loop_step_stop.
    2:{ apply iter_empty_at; [intros m Hm; discriminate | exact Hlast]. }
    rewrite page_calls_back, app_assoc. reflexivity.
  - intros m Hm. discriminate.
Qed.

(** X5: With [max_pages] set to the number of the non-empty [pages] the
    transport would answer with, [get_mentions] returns exactly these pages
    and issues exactly one fetch for each: no fetch is made to see whether
    more would follow. *)
Theorem get_mentions_first_pages (n : string) (id : Z) (startDate : value)
    (h : list call) (pages : list (list value)) (fuel : nat) :
  let ps := mentions_params [] (default_params self today id startDate) in
  n <> "" -> ids self !! n = Some id -> truthy startDate = true ->
  Forall (fun p => p <> []) pages ->
  (forall k, (k < List.length pages)%nat ->
     is_page (project self (h ++ page_calls ps 0 k) (page_call ps (Z.of_nat k)))
             (nth k pages [])) ->
  (List.length pages < fuel)%nat ->
  get_mentions F self today fuel (Some n) startDate
    (Some (Z.of_nat (List.length pages))) [] h
  = (Return (concat pages), h ++ page_calls ps 0 (List.length pages)).
Proof.
  intros ps Hn Hids Hsd Hne Hpages Hfuel.
  unfold get_mentions.
  rewrite (fill_params_nil F self today n id startDate Hn Hids Hsd).
  rewrite bind_lift_return.
  rewrite (mentions_params_nil (default_params self today id startDate)).
  fold ps.
  replace fuel with (List.length pages + S (fuel - S (List.length pages)))%nat
    by lia.
  rewrite (loop_fetch_pages self _ ps pages 0 [] h); try assumption.
  - erewrite loop_step_stop.
    2:{ eapply (iter_cap_reached self _ _ _ (VInt (Z.of_nat (List.length pages))));
        [apply lookup_insert_eq | reflexivity | lia]. }
    reflexivity.
  - intros m [= <-]. lia.
Qed.

(** X6: From an integer starting page on, every call [get_mentions] issues is
    a fetch of the mention search whose parameters are the filled ones with
    the page index set; the indices are consecutive from the starting page;
    with [max_pages = m] they stay below [m], so [m] bounds the page index,
    not the number of pages; and when the starting page is not below [m]
    the call returns the empty list without any fetch. *)
Theorem get_mentions_calls (name : option string) (startDate : value)
    (mp : option Z) (kw : kwargs) (filled : gmap string value) (z0 : Z)
    (fuel : nat) (h : list call) :
  _fill_params F self today name startDate kw = Return filled ->
  start_page kw = VInt z0 ->
  (exists k,
     snd (get_mentions F self today fuel name startDate mp kw h)
     = h ++ page_calls (mentions_params kw filled) z0 k /\
     (forall m, mp = Some m -> (k <= Z.to_nat (m - z0))%nat)) /\
  (forall m, mp = Some m -> m <= z0 -> (0 < fuel)%nat ->
     get_mentions F self today fuel name startDate mp kw h = (Return [], h)).
Proof.
  intros Hfill Hstart.
  assert (Hps : mentions_params kw filled
                = <["page" := VInt z0]> (mentions_params kw filled)).
  { unfold mentions_params. fold (start_page kw). rewrite Hstart.
    now rewrite insert_insert_eq. }
  unfold get_mentions. rewrite Hfill, bind_lift_return.
  split.
  - destruct (loop_calls_shape self mp (mentions_params kw filled) fuel z0 [] h)
      as (k & Hk & Hbound).
    rewrite <- Hps in Hk. exists k. split; assumption.
  - intros m -> Hle Hfuel. destruct fuel as [|fuel]; [lia|].
    apply loop_step_stop.
    apply (iter_cap_reached self m (LoopState (mentions_params kw filled) [])
             h (VInt z0) z0); [|reflexivity|exact Hle].
    simpl. unfold mentions_params. fold (start_page kw). rewrite Hstart.
    apply lookup_insert_eq.
Qed.

(** X7: After any number of fetched pages, a fetch that the transport fails
    ends [get_mentions] with the transport's exception, and an envelope
    with neither an [errors] nor a [results] key ends it with the
    [KeyError] of the missing [results]; in both cases no further call is
    made and nothing of what was fetched is returned. *)
Theorem get_mentions_fetch_failures (name : option string) (startDate : value)
    (mp : option Z) (kw : kwargs) (filled : gmap string value) (n : nat)
    (st : loop_state) (h0 h : list call) (c : call) (fuel : nat) :
  _fill_params F self today name startDate kw = Return filled ->
  run_pages self n mp (LoopState (mentions_params kw filled) []) h0
  = Some (st, h) ->
  next_fetch mp st = Some c ->
  (n < fuel)%nat ->
  (forall e, project self h c = inl e ->
     get_mentions F self today fuel name startDate mp kw h0
     = (Raise e, h ++ [c])) /\
  (forall d, project self h c = inr (VDict d) ->
     dict_mem "errors" d = false -> dict_get "results" d = None ->
     get_mentions F self today fuel name startDate mp kw h0
     = (Raise (PyKeyError (VStr "results")), h ++ [c])).
Proof.
  intros Hfill Hrun Hnext Hfuel.
  unfold get_mentions. rewrite Hfill, bind_lift_return.
  replace fuel with (n + S (fuel - S n))%nat by lia.
  rewrite (loop_run_pages self n _ _ _ _ _ _ Hrun).
  split.
  - intros e Hget. apply loop_step_raise.
    apply iter_fetch_raise; assumption.
  - intros d Hget Herr Hres. apply loop_step_raise.
    eapply iter_fetch_no_results; eassumption.
Qed.

End MoreGetMentions.

Lemma get_mentions_all_pages_witness :
  get_mentions sample_filters (sample_self short_pages) sample_today 2
    (Some "q") sample_start None [] []
  = (Return (concat [[VStr "mention"]]),
     [] ++ page_calls (sample_params short_pages) 0 2).
Proof.
  apply (get_mentions_all_pages sample_filters (sample_self short_pages)
           sample_today "q" 42 sample_start [] [[VStr "mention"]] 2).
  - discriminate.
  - reflexivity.
  - reflexivity.
  - repeat constructor; discriminate.
  - intros k Hk. destruct k as [|k]; [|simpl in Hk; lia].
    eexists. split; [reflexivity|]. split; reflexivity.
  - eexists. split; [reflexivity|]. split; reflexivity.
  - simpl. lia.
Defined.

Lemma get_mentions_first_pages_witness :
  get_mentions sample_filters (sample_self endless_pages) sample_today 3
    (Some "q") sample_start (Some 2) [] []
  = (Return (concat [[VStr "mention"]; [VStr "mention"]]),
     [] ++ page_calls (sample_params endless_pages) 0 2).
Proof.
  apply (get_mentions_first_pages sample_filters (sample_self endless_pages)
           sample_today "q" 42 sample_start []
           [[VStr "mention"]; [VStr "mention"]] 3).
  - discriminate.
  - reflexivity.
  - reflexivity.
  - repeat constructor; discriminate.
  - intros k Hk. destruct k as [|[|k]]; [| |simpl in Hk; lia];
      (eexists; split; [reflexivity|]; split; reflexivity).
  - simpl. lia.
Defined.

Lemma get_mentions_calls_witness :
  (exists k,
     snd (get_mentions sample_filters (sample_self endless_pages) sample_today 9
            (Some "q") sample_start (Some 5) [("page", VInt 3)] [])
     = [] ++ page_calls
               (mentions_params [("page", VInt 3)]
                  (<["page" := VInt 3]> (default_params (sample_self endless_pages)
                                           sample_today 42 sample_start)))
               3 k /\
     (forall m, Some 5 = Some m -> (k <= Z.to_nat (m - 3))%nat)) /\
  (forall m, Some 5 = Some m -> m <= 3 -> (0 < 9)%nat ->
     get_mentions sample_filters (sample_self endless_pages) sample_today 9
       (Some "q") sample_start (Some 5) [("page", VInt 3)] []
     = (Return [], [])).
Proof.
  apply (get_mentions_calls sample_filters (sample_self endless_pages)
           sample_today (Some "q") sample_start (Some 5) [("page", VInt 3)]
           (<["page" := VInt 3]> (default_params (sample_self endless_pages)
                                    sample_today 42 sample_start))
           3 9 []).
  - vm_compute. reflexivity.
  - reflexivity.
Defined.

Lemma get_mentions_fetch_failures_witness :
  get_mentions sample_filters (sample_self failing_transport) sample_today 1
    (Some "q") sample_start None [] []
  = (Raise (TransportError (VStr "timeout")),
     [] ++ [page_call (sample_params failing_transport) 0]) /\
  get_mentions sample_filters (sample_self bare_transport) sample_today 1
    (Some "q") sample_start None [] []
  = (Raise (PyKeyError (VStr "results")),
     [] ++ [page_call (sample_params bare_transport) 0]).
Proof.
  split.
  - apply (proj1 (get_mentions_fetch_failures sample_filters
                    (sample_self failing_transport) sample_today
                    (Some "q") sample_start None []
                    (default_params (sample_self failing_transport)
                       sample_today 42 sample_start)
                    0%nat
                    (LoopState (sample_params failing_transport) [])
                    [] [] (page_call (sample_params failing_transport) 0) 1%nat
                    eq_refl eq_refl ltac:(vm_compute; reflexivity)
                    ltac:(lia))).
    reflexivity.
  - apply (proj2 (get_mentions_fetch_failures sample_filters
                    (sample_self bare_transport) sample_today
                    (Some "q") sample_start None []
                    (default_params (sample_self bare_transport)
                       sample_today 42 sample_start)
                    0%nat
                    (LoopState (sample_params bare_transport) [])
                    [] [] (page_call (sample_params bare_transport) 0) 1%nat
                    eq_refl eq_refl ltac:(vm_compute; reflexivity)
                    ltac:(lia))
             [("total", VInt 0)]);
      reflexivity.
Defined.

(** ** The filter validator *)

(** X3: [_valid_input] accepts a value exactly when it is an instance of the
    class declared for the parameter, if one is declared, and equal to one
    of the legal values declared for the parameter, if any are; a
    parameter that neither table lists is accepted with any value. *)
Theorem valid_input_iff (F : filters) (p : string) (v : value) :
  (_valid_input F p v = true <->
   (forall T, params F !! p = Some T -> isinstance v T = true) /\
   (forall options, special_options F !! p = Some options ->
      list_contains v options = true)) /\
  (params F !! p = None -> special_options F !! p = None ->
   _valid_input F p v = true).
Proof.
  unfold _valid_input. split.
  - destruct (params F !! p) as [T|], (special_options F !! p) as [options|];
      simpl.
    + destruct (isinstance v T) eqn:Hty, (list_contains v options) eqn:Hin;
        simpl; split; try discriminate; try reflexivity.
      * intros _. split; intros ? [= <-]; assumption.
      * intros [_ H]. specialize (H options eq_refl). congruence.
      * intros [H _]. specialize (H T eq_refl). congruence.
      * intros [H _]. specialize (H T eq_refl). congruence.
    + destruct (isinstance v T) eqn:Hty; simpl; split;
        try discriminate; try reflexivity.
      * intros _. split; [intros ? [= <-]; assumption | discriminate].
      * intros [H _]. specialize (H T eq_refl). congruence.
    + destruct (list_contains v options) eqn:Hin; simpl; split;
        try discriminate; try reflexivity.
      * intros _. split; [discriminate | intros ? [= <-]; assumption].
      * intros [_ H]. specialize (H options eq_refl). congruence.
    + split; [|reflexivity]. intros _. split; discriminate.
  - intros -> ->. reflexivity.
Qed.

Lemma valid_input_iff_witness :
  _valid_input sample_filters "anythingElse" (VDict [("k", VNone)]) = true.
Proof.
  apply (proj2 (valid_input_iff sample_filters "anythingElse"
                  (VDict [("k", VNone)])));
    reflexivity.
Defined.

(** ** The accessors that make one call *)

Section OneCall.

Variable F : filters.
Variable self : BWData.
Variable today : Z.

Ltac unfold_accessors :=
  unfold num_mentions, get_chart, get_topics, get_topics_comparison,
    get_authors, get_history, get_topsites, get_tweeters, get_volume, get_world,
    get_keyinsights_mention_count, get_keyinsights_author_count,
    get_keyinsights_topics, get_keyinsights_news, get_summary_sentiment,
    get_summary_topsites, get_summary_pagetypes, get_twitter_insights_feature,
    get_volume_group, get_fb_analytics_partial, get_fb_audience,
    get_fb_comments, get_fb_posts, get_ig_interactions_partial.

(** X8: Every accessor other than [get_mentions], the date-range comparison
    and the aggregators, once its parameters are filled, makes exactly one
    call, to its own endpoint, whatever the transport answers and whether
    or not the answer has the expected shape; the parameters it sends are
    the filled ones, up to the keys [limit], [pageSize], [dim1Args] and
    [dim2Args] that some accessors set themselves. *)
Theorem accessor_one_call (a : accessor) (ep : string) (name : option string)
    (startDate : value) (kw : kwargs) (filled : gmap string value)
    (h : list call) :
  fills_first a = true ->
  endpoint_of a = Some ep ->
  _fill_params F self today name startDate kw = Return filled ->
  exists ps,
    snd (call_accessor F self today a name startDate kw h) = h ++ [Call ep ps] /\
    (forall k, k ∉ adjusted_keys -> ps !! k = filled !! k).
Proof.
  intros Hff Hep Hfill.
  destruct a; simpl in Hep; try discriminate; injection Hep as <-;
    simpl in Hff; simpl; unfold_accessors; rewrite ?Hff; simpl;
    unfold bind, lift, get; rewrite Hfill; cbv beta iota zeta;
    repeat (case_match; simpl in *; simplify_eq);
    (eexists; split;
      [ reflexivity
      | intros k Hk; unfold adjusted_keys in Hk;
        rewrite !not_elem_of_union, !not_elem_of_singleton in Hk;
        destruct Hk as [[[? ?] ?] ?];
        rewrite ?lookup_insert_ne by congruence; reflexivity ]).
Qed.

End OneCall.

Lemma accessor_one_call_witness :
  exists ps,
    snd (call_accessor sample_filters (sample_self sample_api) sample_today
           GetKeyinsightsTopics (Some "q") sample_start
           [("limit", VInt 10)] [])
    = [] ++ [Call "data/volume/topics/queries" ps] /\
    (forall k, k ∉ adjusted_keys ->
       ps !! k
       = (<["limit" := VInt 10]>
            (default_params (sample_self sample_api) sample_today 42
               sample_start)) !! k).
Proof.
  apply (accessor_one_call sample_filters (sample_self sample_api) sample_today
           GetKeyinsightsTopics "data/volume/topics/queries" (Some "q")
           sample_start [("limit", VInt 10)]).
  - reflexivity.
  - reflexivity.
  - vm_compute. reflexivity.
Defined.

(** ** Charts *)

Section Chart.

Variable F : filters.
Variable self : BWData.
Variable today : Z.

(** X9: [get_chart] fails for a missing axis before it looks at the name,
    the start date or the filters, and without a call.  With its three
    axes and filled parameters it makes one call to
    [data/<y_axis>/<x_axis>/<breakdown_by>] and returns the transport's
    answer as it is; the call carries the filled parameters, except that
    [dim1Args] and [dim2Args], when present, are resolved once more, under
    the name of the x axis and of the breakdown. *)
Theorem get_chart_call (name : option string) (startDate : value)
    (kw : kwargs) (h : list call) :
  (forall y_axis x_axis breakdown_by,
     truthy_str y_axis && truthy_str x_axis && truthy_str breakdown_by = false ->
     get_chart F self today name startDate y_axis x_axis breakdown_by kw h
     = (Raise MissingChartAxesError, h)) /\
  (forall y x b filled,
     y <> "" -> x <> "" -> b <> "" ->
     _fill_params F self today name startDate kw = Return filled ->
     exists ps,
       let c := Call ("data/" +:+ y +:+ "/" +:+ x +:+ "/" +:+ b) ps in
       get_chart F self today name startDate (Some y) (Some x) (Some b) kw h
       = (match project self h c with
          | inl e => Raise e
          | inr v => Return v
          end, h ++ [c]) /\
       ps !! "dim1Args" = _name_to_id self x <$> filled !! "dim1Args" /\
       ps !! "dim2Args" = _name_to_id self b <$> filled !! "dim2Args" /\
       (forall k, k <> "dim1Args" -> k <> "dim2Args" -> ps !! k = filled !! k)).
Proof.
  split.
  - intros y_axis x_axis breakdown_by Hax. unfold get_chart.
    rewrite Hax. reflexivity.
  - intros y x b filled Hy Hx Hb Hfill. unfold get_chart, truthy_str.
    apply String.eqb_neq in Hy, Hx, Hb. rewrite Hy, Hx, Hb. simpl.
    rewrite Hfill, bind_lift_return.
    destruct (filled !! "dim1Args") as [d1|] eqn:H1.
    + rewrite lookup_insert_ne by discriminate.
      destruct (filled !! "dim2Args") as [d2|] eqn:H2.
      * eexists. split; [reflexivity|]. repeat split.
        -- rewrite lookup_insert_ne by discriminate.
           apply lookup_insert_eq.
        -- apply lookup_insert_eq.
        -- intros k Hk1 Hk2. rewrite !lookup_insert_ne by congruence.
           reflexivity.
      * eexists. split; [reflexivity|]. repeat split.
        -- apply lookup_insert_eq.
        -- rewrite lookup_insert_ne by discriminate. exact H2.
        -- intros k Hk1 Hk2. rewrite !lookup_insert_ne by congruence.
           reflexivity.
    + destruct (filled !! "dim2Args") as [d2|] eqn:H2.
      * eexists. split; [reflexivity|]. repeat split.
        -- rewrite lookup_insert_ne by discriminate. exact H1.
        -- apply lookup_insert_eq.
        -- intros k Hk1 Hk2. rewrite !lookup_insert_ne by congruence.
           reflexivity.
      * eexists. split; [reflexivity|]. repeat split; assumption.
Qed.

End Chart.

Lemma get_chart_call_witness :
  get_chart sample_filters (sample_self sample_api) sample_today
    None VNone None (Some "days") (Some "sentiment")
    [("sentiment", VStr "glad")] []
  = (Raise MissingChartAxesError, []) /\
  exists ps,
    let c := Call ("data/" +:+ "volume" +:+ "/" +:+ "days" +:+ "/" +:+ "tags") ps in
    get_chart sample_filters (sample_self sample_api) sample_today
      (Some "q") sample_start (Some "volume") (Some "days") (Some "tags")
      [("dim2Args", VList [VStr "spam"])] []
    = (match project (sample_self sample_api) [] c with
       | inl e => Raise e
       | inr v => Return v
       end, [] ++ [c]) /\
    ps !! "dim1Args"
    = _name_to_id (sample_self sample_api) "days"
      <$> (<["dim2Args" := VList [VStr "spam"]]>
             (default_params (sample_self sample_api) sample_today 42
                sample_start)) !! "dim1Args" /\
    ps !! "dim2Args"
    = _name_to_id (sample_self sample_api) "tags"
      <$> (<["dim2Args" := VList [VStr "spam"]]>
             (default_params (sample_self sample_api) sample_today 42
                sample_start)) !! "dim2Args" /\
    (forall k, k <> "dim1Args" -> k <> "dim2Args" ->
       ps !! k
       = (<["dim2Args" := VList [VStr "spam"]]>
            (default_params (sample_self sample_api) sample_today 42
               sample_start)) !! k).
Proof.
  split.
  - apply (proj1 (get_chart_call sample_filters (sample_self sample_api)
                    sample_today None VNone [("sentiment", VStr "glad")] [])).
    reflexivity.
  - apply (proj2 (get_chart_call sample_filters (sample_self sample_api)
                    sample_today (Some "q") sample_start
                    [("dim2Args", VList [VStr "spam"])] [])
             "volume" "days" "tags").
    + discriminate.
    + discriminate.
    + discriminate.
    + vm_compute. reflexivity.
Defined.

(** ** Counting the calls of the aggregators *)

Section Calls.

Context {A B : Type}.



Lemma calls_raise (e : exn) : calls 0 (@raise A e).
Proof.
  intros h. exists []. simpl. rewrite app_nil_r. repeat split; auto.
Qed.


End Calls.



Section AggregatorCalls.

Variable F : filters.
Variable self : BWData.
Variable today : Z.




End AggregatorCalls.


(** ** The summary as a composition *)

Section Summary.

Variable F : filters.
Variable self : BWData.
Variable today : Z.

(** Against a transport whose answers do not depend on the history, what
    a fetch-and-unwrap accessor returns does not depend on it either. *)
Lemma fetch_stateless {B : Type} (fill : result (gmap string value))
    (ep : string) (g : value -> result B) (h h' : list call) :
  stateless (project self) ->
  fst (bind (lift fill) (fun ps => bind (get self ep ps) (fun r => lift (g r))) h)
  = fst (bind (lift fill) (fun ps => bind (get self ep ps) (fun r => lift (g r))) h').
Proof.
  intros Hst. unfold bind, lift, get.
  destruct fill as [ps|e|]; simpl; try reflexivity.
  rewrite (Hst h h'). destruct (project self h' _); reflexivity.
Qed.

(** X11: Against a transport whose answers do not depend on the history,
    [get_summary] returns exactly when the three accessors
    [get_summary_sentiment], [get_topsites] and [get_volume], called with
    the name and the start date and no filter, all return, and its dict
    binds [sentiment], [topsites] and [pagetypes] to what they return. *)
Theorem get_summary_composition (name : option string) (startDate : value)
    (kw : kwargs) (h : list call) (v : value) :
  stateless (project self) ->
  fst (get_summary F self today name startDate kw h) = Return v <->
  exists sentiment topsites pagetypes,
    v = VDict [("sentiment", sentiment); ("topsites", topsites);
               ("pagetypes", pagetypes)] /\
    fst (get_summary_sentiment F self today name startDate [] h)
    = Return sentiment /\
    fst (get_topsites F self today name startDate [] h) = Return topsites /\
    fst (get_volume F self today name startDate [] h) = Return pagetypes.
Proof.
  intros Hst.
  change (get_topsites F self today name startDate [])
    with (get_summary_topsites F self today name startDate []).
  change (get_volume F self today name startDate [])
    with (get_summary_pagetypes F self today name startDate []).
  assert (H2 : forall h', fst (get_summary_topsites F self today name startDate [] h')
                          = fst (get_summary_topsites F self today name startDate [] h)).
  { intros h'. apply fetch_stateless. exact Hst. }
  assert (H3 : forall h', fst (get_summary_pagetypes F self today name startDate [] h')
                          = fst (get_summary_pagetypes F self today name startDate [] h)).
  { intros h'. apply fetch_stateless. exact Hst. }
  unfold get_summary. unfold bind at 1.
  destruct (get_summary_sentiment F self today name startDate [] h)
    as [[a|e|] h1] eqn:E1; simpl.
  2:{ split; [discriminate | intros (? & ? & ? & _ & ? & _); discriminate]. }
  2:{ split; [discriminate | intros (? & ? & ? & _ & ? & _); discriminate]. }
  unfold bind at 1. specialize (H2 h1).
  destruct (get_summary_topsites F self today name startDate [] h1)
    as [[b|e|] h2] eqn:E2; simpl in *.
  2:{ split; [discriminate|].
      intros (? & ? & ? & _ & _ & Hb & _). congruence. }
  2:{ split; [discriminate|].
      intros (? & ? & ? & _ & _ & Hb & _). congruence. }
  unfold bind at 1. specialize (H3 h2).
  destruct (get_summary_pagetypes F self today name startDate [] h2)
    as [[c|e|] h3] eqn:E3; simpl in *.
  2:{ split; [discriminate|].
      intros (? & ? & ? & _ & _ & _ & Hc). congruence. }
  2:{ split; [discriminate|].
      intros (? & ? & ? & _ & _ & _ & Hc). congruence. }
  split.
  - intros [= <-]. exists a, b, c. repeat split; congruence.
  - intros (a' & b' & c' & -> & Ha & Hb & Hc). congruence.
Qed.

End Summary.

Lemma get_summary_composition_witness :
  fst (get_summary sample_filters (sample_self sample_api) sample_today
         (Some "q") sample_start [("sentiment", VStr "glad")] [])
  = Return (VDict [("sentiment", VList [VInt 1]); ("topsites", VList [VInt 1]);
                   ("pagetypes", VList [VInt 1])]).
Proof.
  apply (get_summary_composition sample_filters (sample_self sample_api)
           sample_today (Some "q") sample_start [("sentiment", VStr "glad")] []).
  - intros h h' c. reflexivity.
  - exists (VList [VInt 1]), (VList [VInt 1]), (VList [VInt 1]).
    repeat split; vm_compute; reflexivity.
Defined.

(** ** The date-range comparison *)

Section DateRanges.

Variable F : filters.
Variable self : BWData.
Variable today : Z.

(** The comprehension over well-formed date ranges, for a list of names. *)
Lemma select_ids_matching drs names :
  Forall is_date_range drs ->
  select_date_range_ids drs (VList names) = Return (matching_ids drs names).
Proof.
  unfold matching_ids.
  induction drs as [|dr rest IH]; intros Hwf; simpl.
  - reflexivity.
  - inversion Hwf as [|? ? (nm & id & Hnm & Hid) Hrest]; subst.
    rewrite Hnm. simpl.
    replace (dr_field "name" dr) with nm by (unfold dr_field; now rewrite Hnm).
    destruct (list_contains nm names).
    + rewrite Hid, (IH Hrest). simpl.
      replace (dr_field "id" dr) with id by (unfold dr_field; now rewrite Hid).
      reflexivity.
    + apply IH. exact Hrest.
Qed.

(** X12: The date-range comparison first fetches the date ranges of the entity
    and keeps the ids of those whose name is in [date_ranges], in the
    order the entity lists them.  When none matches it fails with an
    invalid-date-range error, before the start date or any filter is
    looked at.  Otherwise the parameters are filled, a failure of which
    ends the call after the one fetch, and the second call carries the
    filled parameters with [dateRanges] set to the ids, in place of any
    filter of that name; its [results] are returned. *)
Theorem date_range_comparison_outcomes (n : string) (id : Z)
    (startDate : value) (names : list value) (kw : kwargs) (h : list call)
    (drs : list value) :
  let c1 := Call ("queries/" +:+ str_of_Z id +:+ "/date-range") ∅ in
  let selected := matching_ids drs names in
  ids self !! n = Some id ->
  project self h c1 = inr (VList drs) ->
  Forall is_date_range drs ->
  (selected = [] ->
   get_date_range_comparison F self today (Some n) startDate (VList names) kw h
   = (Raise InvalidDateRangeError, h ++ [c1])) /\
  (selected <> [] -> forall e,
   _fill_params F self today (Some n) startDate kw = Raise e ->
   get_date_range_comparison F self today (Some n) startDate (VList names) kw h
   = (Raise e, h ++ [c1])) /\
  (selected <> [] -> forall filled,
   _fill_params F self today (Some n) startDate kw = Return filled ->
   let c2 := Call "data/volume/dateRanges/days"
                  (<["dateRanges" := VList selected]> filled) in
   get_date_range_comparison F self today (Some n) startDate (VList names) kw h
   = (match project self (h ++ [c1]) c2 with
      | inl e => Raise e
      | inr r => py_getitem r "results"
      end, h ++ [c1; c2])).
Proof.
  intros c1 selected Hids Hget Hwf.
  assert (Hstart :
            get_date_range_comparison F self today (Some n) startDate
              (VList names) kw h
            = (if match selected with [] => true | _ => false end
               then raise InvalidDateRangeError
               else
                 ps <- lift (_fill_params F self today (Some n) startDate kw) ;;
                 let ps := <["dateRanges" := VList selected]> ps in
                 r <- get self "data/volume/dateRanges/days" ps ;;
                 lift (py_getitem r "results")) (h ++ [c1])).
  { unfold get_date_range_comparison.
    rewrite Hids, bind_lift_return.
    unfold bind at 1, _get_date_ranges, get.
    change ("queries/" +:+ str_of_Z id +:+ "/" +:+ "date-range")
      with ("queries/" +:+ str_of_Z id +:+ "/date-range").
    fold c1. rewrite Hget. cbn [py_seq].
    rewrite (select_ids_matching drs names Hwf), bind_lift_return.
    fold selected. simpl py_eqb. rewrite orb_false_r. reflexivity. }
  rewrite Hstart. clear Hstart.
  split; [|split].
  - intros ->. reflexivity.
  - intros Hsel e Hfill.
    destruct selected; [congruence|]. rewrite Hfill. reflexivity.
  - intros Hsel filled Hfill c2.
    destruct selected as [|s0 sel] eqn:Hs; [congruence|].
    rewrite Hfill, bind_lift_return. cbv zeta.
    unfold bind, get, lift. fold c2.
    rewrite <- app_assoc. simpl.
    destruct (project self (h ++ [c1]) c2) as [e|r]; [reflexivity|].
    destruct (py_getitem r "results"); reflexivity.
Qed.

End DateRanges.

Lemma date_range_comparison_outcomes_witness :
  get_date_range_comparison sample_filters (sample_self sample_api) sample_today
    (Some "q") VNone (VList [VStr "yesterday"]) [("sentiment", VStr "glad")] []
  = (Raise InvalidDateRangeError, [] ++ [Call "queries/42/date-range" ∅]) /\
  get_date_range_comparison sample_filters (sample_self sample_api) sample_today
    (Some "q") VNone (VList [VStr "last year"; VStr "last week"]) [] []
  = (Raise (MissingStartDateError []), [] ++ [Call "queries/42/date-range" ∅]) /\
  get_date_range_comparison sample_filters (sample_self sample_api) sample_today
    (Some "q") sample_start (VList [VStr "last year"; VStr "last week"])
    [("dateRanges", VStr "mine")] []
  = (Return (VList [VInt 1]),
     [] ++ [Call "queries/42/date-range" ∅;
            Call "data/volume/dateRanges/days"
              (<["dateRanges" := VList [VInt 7; VInt 9]]>
                 (<["dateRanges" := VStr "mine"]>
                    (default_params (sample_self sample_api) sample_today 42
                       sample_start)))]).
Proof.
  assert (Hwf : Forall is_date_range
                  [VDict [("id", VInt 7); ("name", VStr "last week")];
                   VDict [("id", VInt 8); ("name", VStr "last month")];
                   VDict [("id", VInt 9); ("name", VStr "last year")]]).
  { repeat constructor; eexists _, _; split; reflexivity. }
  split; [|split].
  - apply (proj1 (date_range_comparison_outcomes sample_filters
                    (sample_self sample_api) sample_today "q" 42 VNone
                    [VStr "yesterday"] [("sentiment", VStr "glad")] [] _
                    eq_refl eq_refl Hwf)).
    reflexivity.
  - apply (proj1 (proj2 (date_range_comparison_outcomes sample_filters
                    (sample_self sample_api) sample_today "q" 42 VNone
                    [VStr "last year"; VStr "last week"] [] [] _
                    eq_refl eq_refl Hwf))).
    + discriminate.
    + reflexivity.
  - apply (proj2 (proj2 (date_range_comparison_outcomes sample_filters
                    (sample_self sample_api) sample_today "q" 42 sample_start
                    [VStr "last year"; VStr "last week"]
                    [("dateRanges", VStr "mine")] [] _
                    eq_refl eq_refl Hwf))).
    + discriminate.
    + vm_compute. reflexivity.
Defined.

(** ** Empty results *)

Section EmptyResults.

Variable F : filters.
Variable self : BWData.
Variable today : Z.

(** X13: The accessors that take the first element of [results] fail with an
    [IndexError] when the envelope's [results] is an empty list: the
    author count of the key insights and the Facebook and Instagram
    partial accessors; the one call has been made. *)
Theorem empty_results_index_error (name : option string) (startDate : value)
    (kw : kwargs) (filled : gmap string value) (h : list call)
    (d : list (string * value)) :
  _fill_params F self today name startDate kw = Return filled ->
  dict_get "results" d = Some (VList []) ->
  (project self h (Call "data/authors/months/queries" filled) = inr (VDict d) ->
   get_keyinsights_author_count F self today name startDate kw h
   = (Raise PyIndexError, h ++ [Call "data/authors/months/queries" filled])) /\
  (forall metadata_type,
     metadata_type <> "" ->
     project self h (Call ("data/" +:+ metadata_type +:+ "/queries/days") filled)
     = inr (VDict d) ->
     get_fb_analytics_partial F self today name startDate (Some metadata_type) kw h
     = (Raise PyIndexError,
        h ++ [Call ("data/" +:+ metadata_type +:+ "/queries/days") filled]) /\
     get_ig_interactions_partial F self today name startDate (Some metadata_type)
       kw h
     = (Raise PyIndexError,
        h ++ [Call ("data/" +:+ metadata_type +:+ "/queries/days") filled])).
Proof.
  intros Hfill Hres. split.
  - intros Hget. unfold get_keyinsights_author_count.
    rewrite Hfill, bind_lift_return.
    unfold bind, get, lift. rewrite Hget. simpl. rewrite Hres. reflexivity.
  - intros mt Hmt Hget.
    unfold get_fb_analytics_partial, get_ig_interactions_partial, truthy_str.
    apply String.eqb_neq in Hmt. rewrite Hmt. simpl.
    rewrite Hfill, bind_lift_return.
    unfold bind, get, lift. rewrite Hget. simpl. rewrite Hres.
    split; reflexivity.
Qed.

End EmptyResults.

Lemma empty_results_index_error_witness :
  get_keyinsights_author_count sample_filters (sample_self empty_results)
    sample_today (Some "q") sample_start [] []
  = (Raise PyIndexError,
     [] ++ [Call "data/authors/months/queries"
              (default_params (sample_self empty_results) sample_today 42
                 sample_start)]).
Proof.
  apply (proj1 (empty_results_index_error sample_filters
                  (sample_self empty_results) sample_today (Some "q")
                  sample_start [] _ [] [("results", VList [])]
                  eq_refl eq_refl)).
  reflexivity.
Defined.
